(** * NonFungible adapter tutorial: asset matching and the transfer scripts

    A shallow embedding of

    - the runtime snippets of [README.md]: [NftsMatcher] (the matcher of the
      XCM executor) and [NftsFromSiblings] (the reserve filter);
    - the two variants of [scripts/transfer-nft.js] (unsafe API and typed
      API): the message builders, [transferNftToSibling], [queryNftOwner]
      and [queryCollectionCount];
    - [main] of [scripts/transfer-nft.js] on the unsafe API, with
      [createSigner] and [connectToParachain];
    - [scripts/setup-collections.js] on the typed API: [createCollection],
      [mintNft], [setMetadata], [queryNftOwner] and [main];

    followed by the properties the specification states about them and by
    further properties of the code. *)

From Stdlib Require Import ZArith List Lia Ascii String.
From Stdlib.Strings Require Import Byte.
From stdpp Require Import base tactics option list strings pretty gmap.

Local Open Scope Z_scope.

(** ** The XCM data model *)

Module Xcm.

Definition Bytes := list Byte.byte.

(** Modelled from the spec: the junction enum is declared by the XCM crate,
    outside src/; these are the four variants of the data model.  The
    payloads are [u32], [u8], [u128] and a 32-byte id. *)
Inductive Junction : Type :=
| Parachain (id : Z)
| PalletInstance (index : Z)
| GeneralIndex (value : Z)
| AccountId32 (network : option string) (id : Bytes).

(** [Location { parents, interior }]; [unpack] gives the pair of the hop
    count and the slice of junctions.  The scripts write an interior of
    [n] junctions as [{ type: "Xn", value: [...] }]. *)
Record Location : Type := { parents : Z; interior : list Junction }.

Definition unpack (l : Location) : Z * list Junction :=
  (parents l, interior l).

(** Modelled from the spec: the instance enum is declared by the XCM crate,
    outside src/. *)
Inductive AssetInstance : Type :=
| Undefined
| Index (value : Z)
| Array4 (b : Bytes)
| Array8 (b : Bytes)
| Array16 (b : Bytes)
| Array32 (b : Bytes)
| Blob (b : Bytes).

Inductive Fungibility : Type :=
| Fungible (amount : Z)
| NonFungible (instance : AssetInstance).

(** [Asset { id, fun }] *)
Record Asset : Type := { id : Location; fun_ : Fungibility }.

(** Modelled from the spec: the error enum of the matcher is declared by the
    executor crate, outside src/.  The code names [AssetNotHandled]; the
    error taxonomy also lists [OutOfRange]. *)
Inductive Error : Type :=
| AssetNotHandled
| OutOfRange.

Inductive Result (T E : Type) : Type :=
| Ok (t : T)
| Err (e : E).
Arguments Ok {T E} t.
Arguments Err {T E} e.

(** [x as u32] on a [u128]: the low 32 bits. *)
Definition as_u32 (x : Z) : Z := x mod 2 ^ 32.

(** [impl MatchesNonFungibles<u32, u32> for NftsMatcher] *)
Definition matches_nonfungibles (a : Asset) : Result (Z * Z) Error :=
  match unpack (id a), fun_ a with
  | (0, [PalletInstance 51; GeneralIndex collection]),
    NonFungible (Index item) =>
      Ok (as_u32 collection, as_u32 item)
  | _, _ => Err AssetNotHandled
  end.

(** [impl ContainsPair<Asset, Location> for NftsFromSiblings] *)
Definition contains (asset : Asset) (origin : Location) : bool :=
  match unpack origin, fun_ asset with
  | (1, [Parachain _]), NonFungible _ => true
  | _, _ => false
  end.

(** The versioned wrapper [{ type: "V4", value }] of the scripts. *)
Inductive Versioned (A : Type) : Type :=
| V4 (value : A).
Arguments V4 {A} value.

End Xcm.

Import Xcm.

(** ** The scripts' effects

    An [async] function is a state transformer over the remote ledgers, the
    list of requests sent so far and the console; it completes by returning
    or by throwing.  The ledgers are a parameter: what a chain answers is
    not the scripts' business. *)

Module Js.

(** Modelled from the spec: what a rejected promise carries.  The error
    taxonomy separates the transient [ConnectionError] from failures that
    are not transient (a malformed query, a rejected submission). *)
Inductive JsError : Type :=
| ConnectionError
| MalformedQuery
| InvalidTransaction
| Thrown (message : string).

Definition transient (e : JsError) : bool :=
  match e with
  | ConnectionError => true
  | _ => false
  end.

(** [clientA], [clientB] of [main]. *)
Inductive Client : Type := clientA | clientB.

(** The signer object made by [createSigner]. *)
Record Signer : Type := { publicKey : Bytes; address : string }.

(** [{ type: "Unlimited" }] *)
Inductive WeightLimit : Type :=
| Unlimited
| Limited (weight : Z).

(** An event of a finalized transaction: [event.type] and
    [event.value.type]. *)
Record TxEvent : Type := { type : string; value_type : string }.

(** What [signAndSubmit] resolves to: [result.block.hash] and
    [result.events]. *)
Record TxResult : Type := { block_hash : string; events : list TxEvent }.

(** The argument of [api.tx.PolkadotXcm.limited_reserve_transfer_assets]. *)
Record ReserveTransfer : Type := {
  dest : Versioned Location;
  beneficiary : Versioned Location;
  assets : Versioned (list Asset);
  fee_asset_item : Z;
  weight_limit : WeightLimit;
}.

Inductive Tx : Type :=
| PolkadotXcm_limited_reserve_transfer_assets (args : ReserveTransfer).

Inductive Outcome (R : Type) : Type :=
| Resolved (r : R)
| Rejected (e : JsError).
Arguments Resolved {R} r.
Arguments Rejected {R} e.

(** How a function completes. *)
Inductive Completion (A : Type) : Type :=
| Returned (a : A)
| Threw (e : JsError).
Arguments Returned {A} a.
Arguments Threw {A} e.

Section Api.

(** The representation of [item.owner]: the account bytes on the unsafe
    API, an SS58 address on the typed one. *)
Variable Owner : Type.

Record ItemDetails : Type := { owner : Owner }.

(** The remote calls of the scripts, indexed by what they resolve to.
    [getValue] resolves to [undefined] ([None]) when the item does not
    exist. *)
Inductive Request : Type -> Type :=
| Nfts_Item_getValue (collectionId itemId : Z) : Request (option ItemDetails)
| Nfts_Collection_getEntries : Request (list Z)
| signAndSubmit (tx : Tx) (signer : Signer) : Request TxResult.

Inductive Sent : Type :=
| Send {R : Type} (client : Client) (q : Request R).

Record Ledger : Type := {
  World : Type;
  respond : forall R, World -> Client -> Request R -> World * Outcome R;
}.

Variable L : Ledger.

Record State : Type := {
  world : World L;
  sent : list Sent;
  console : list string;
}.

Definition Script (A : Type) : Type := State -> State * Completion A.

#[global] Instance Script_ret : MRet Script :=
  fun A a st => (st, Returned a).

#[global] Instance Script_bind : MBind Script :=
  fun A B k m st =>
    match m st with
    | (st', Returned a) => k a st'
    | (st', Threw e) => (st', Threw e)
    end.

(** [await q]: the request goes out, the ledger answers. *)
Definition await {R : Type} (client : Client) (q : Request R) : Script R :=
  fun st =>
    let (w, o) := respond L R (world st) client q in
    let st' := {| world := w;
                  sent := sent st ++ [Send client q];
                  console := console st |} in
    match o with
    | Resolved r => (st', Returned r)
    | Rejected e => (st', Threw e)
    end.

(** The state once the ledger has answered a request. *)
Definition after_request {R : Type} (st : State) (client : Client)
    (q : Request R) : State :=
  {| world := fst (respond L R (world st) client q);
     sent := sent st ++ [Send client q];
     console := console st |}.

(** The state with more lines on the console. *)
Definition after_logs (st : State) (lines : list string) : State :=
  {| world := world st; sent := sent st; console := console st ++ lines |}.

(** [try { body } catch (e) { handler }] *)
Definition try_catch {A : Type} (body : Script A)
    (handler : JsError -> Script A) : Script A :=
  fun st =>
    match body st with
    | (st', Returned a) => (st', Returned a)
    | (st', Threw e) => handler e st'
    end.

Definition console_log (line : string) : Script unit :=
  fun st =>
    ({| world := world st;
        sent := sent st;
        console := console st ++ [line] |}, Returned tt).

(** [for (const x of xs) { body }] *)
Fixpoint for_of {X : Type} (xs : list X) (body : X -> Script unit)
  : Script unit :=
  match xs with
  | [] => mret tt
  | x :: xs' => _ ← body x; for_of xs' body
  end.

(** A script that only writes to the console and returns. *)
Definition only_logs (m : Script unit) : Prop :=
  forall st, exists lines, m st = (after_logs st lines, Returned tt).

(** The submissions among the requests sent. *)
Definition is_submission (s : Sent) : bool :=
  match s with
  | @Send _ _ (signAndSubmit _ _) => true
  | _ => false
  end.

Definition submissions (st : State) : list Sent :=
  filter (fun s => is_submission s = true) (sent st).

End Api.

Arguments owner {Owner} _.
Arguments Build_ItemDetails {Owner} owner.
Arguments Nfts_Item_getValue {Owner} collectionId itemId.
Arguments Nfts_Collection_getEntries {Owner}.
Arguments signAndSubmit {Owner} tx signer.
Arguments Send {Owner R} client q.
Arguments World {Owner} _.
Arguments respond {Owner} _ {R} _ _ _.
Arguments world {Owner L} _.
Arguments sent {Owner L} _.
Arguments console {Owner L} _.
Arguments Build_State {Owner L} world sent console.
Arguments await {Owner L R} client q.
Arguments after_request {Owner L R} st client q.
Arguments after_logs {Owner L} st lines.
Arguments only_logs {Owner L} m.
Arguments try_catch {Owner L A} body handler.
Arguments console_log {Owner L} line.
Arguments for_of {Owner L X} xs body.
Arguments is_submission {Owner} s.
Arguments submissions {Owner L} st.

Definition LF : string := String "010"%char EmptyString.

End Js.

Import Js.

(** [BigInt(n)] on an integral number. *)
Definition BigInt (n : Z) : Z := n.

(** polkadot-api's [Binary.fromBytes] wraps a byte array; the bytes it
    carries are the ones it is given. *)
Definition Binary_fromBytes (b : Bytes) : Bytes := b.

(** ** [scripts/transfer-nft.js] on the unsafe API, [client.getUnsafeApi()] *)

Module Untyped.

Definition PARACHAIN_A_ID : Z := 1000.
Definition PARACHAIN_B_ID : Z := 1001.
Definition NFTS_PALLET_INDEX : Z := 51.
Definition SS58_PREFIX : Z := 42.

Definition buildDestination (parachainId : Z) (recipientPublicKey : Bytes)
  : Versioned Location :=
  V4 {| parents := 1;
        interior := [ Parachain parachainId;
                      AccountId32 None recipientPublicKey ] |}.

Definition buildBeneficiary (recipientPublicKey : Bytes)
  : Versioned Location :=
  V4 {| parents := 0;
        interior := [ AccountId32 None recipientPublicKey ] |}.

Definition buildNftAsset (collectionId itemId : Z) : Versioned (list Asset) :=
  V4 [ {| id := {| parents := 0;
                   interior := [ PalletInstance NFTS_PALLET_INDEX;
                                 GeneralIndex (BigInt collectionId) ] |};
          fun_ := NonFungible (Index (BigInt itemId)) |} ].

Section Effects.

Variable L : Ledger Bytes.
(** [ss58Encode] of [@polkadot-api/ss58]. *)
Variable ss58Encode : Bytes -> Z -> string.

(** The logging loop over [result.events]. *)
Definition log_event (event : TxEvent) : Script Bytes L unit :=
  _ ← (if String.eqb (type event) "PolkadotXcm" then
         _ ← console_log ("  Event: PolkadotXcm." +:+ value_type event);
         if String.eqb (value_type event) "Sent" then
           console_log "  XCM message sent successfully!"
         else mret tt
       else mret tt);
  if String.eqb (type event) "XcmpQueue" then
    console_log ("  Event: XcmpQueue." +:+ value_type event)
  else mret tt.

Definition transferNftToSibling (client : Client) (signer : Signer)
    (collectionId itemId destParachainId : Z) (recipientPublicKey : Bytes)
  : Script Bytes L TxResult :=
  _ ← console_log (LF +:+ "Initiating NFT transfer...");
  _ ← console_log ("  Collection: " +:+ pretty collectionId);
  _ ← console_log ("  Item: " +:+ pretty itemId);
  _ ← console_log ("  Destination: Parachain " +:+ pretty destParachainId);
  _ ← console_log ("  Recipient: "
                    +:+ ss58Encode recipientPublicKey SS58_PREFIX);
  let dest := buildDestination destParachainId recipientPublicKey in
  let beneficiary := buildBeneficiary recipientPublicKey in
  let assets := buildNftAsset collectionId itemId in
  _ ← console_log (LF +:+ "Sending XCM reserve transfer...");
  let tx := PolkadotXcm_limited_reserve_transfer_assets
              {| dest := dest;
                 beneficiary := beneficiary;
                 assets := assets;
                 fee_asset_item := 0;
                 weight_limit := Unlimited |} in
  result ← await client (signAndSubmit tx signer);
  _ ← console_log (LF +:+ "Transaction included in block: "
                    +:+ block_hash result);
  _ ← for_of (events result) log_event;
  mret result.

(** [null] is [None].  The [try] block either returns the address or
    falls through to [return null]; the [catch] block is empty. *)
Definition queryNftOwner (client : Client) (collectionId itemId : Z)
  : Script Bytes L (option string) :=
  returned ← try_catch
    (item ← await client (Nfts_Item_getValue collectionId itemId);
     match item with
     | Some item => mret (Some (ss58Encode (owner item) SS58_PREFIX))
     | None => mret None
     end)
    (fun e => mret None);
  match returned with
  | Some address => mret (Some address)
  | None => mret None
  end.

Definition queryCollectionCount (client : Client) : Script Bytes L Z :=
  try_catch
    (collections ← await client Nfts_Collection_getEntries;
     mret (Z.of_nat (length collections)))
    (fun e => mret 0).

End Effects.

End Untyped.

(** ** [scripts/transfer-nft.js] on the typed API,
       [client.getTypedApi(descriptor)] *)

Module Typed.

Definition PARACHAIN_A_ID : Z := 1000.
Definition PARACHAIN_B_ID : Z := 1001.
Definition NFTS_PALLET_INDEX : Z := 51.
Definition SS58_PREFIX : Z := 42.

Definition buildDestination (parachainId : Z) : Versioned Location :=
  V4 {| parents := 1; interior := [ Parachain parachainId ] |}.

Definition buildBeneficiary (recipientPublicKey : Bytes)
  : Versioned Location :=
  V4 {| parents := 0;
        interior := [ AccountId32 None (Binary_fromBytes recipientPublicKey) ] |}.

Definition buildNftAsset (collectionId itemId : Z) : Versioned (list Asset) :=
  V4 [ {| id := {| parents := 0;
                   interior := [ PalletInstance NFTS_PALLET_INDEX;
                                 GeneralIndex (BigInt collectionId) ] |};
          fun_ := NonFungible (Index (BigInt itemId)) |} ].

Section Effects.

(** On the typed API [item.owner] already is an address. *)
Variable L : Ledger string.

Definition log_event (event : TxEvent) : Script string L unit :=
  _ ← (if String.eqb (type event) "PolkadotXcm" then
         _ ← console_log ("  Event: PolkadotXcm." +:+ value_type event);
         if String.eqb (value_type event) "Sent" then
           console_log "  XCM message sent successfully!"
         else mret tt
       else mret tt);
  if String.eqb (type event) "XcmpQueue" then
    console_log ("  Event: XcmpQueue." +:+ value_type event)
  else mret tt.

Definition transferNftToSibling (client : Client) (signer : Signer)
    (collectionId itemId destParachainId : Z) (recipientPublicKey : Bytes)
  : Script string L TxResult :=
  _ ← console_log (LF +:+ "Initiating NFT transfer...");
  _ ← console_log ("  Collection: " +:+ pretty collectionId);
  _ ← console_log ("  Item: " +:+ pretty itemId);
  _ ← console_log ("  Destination: Parachain " +:+ pretty destParachainId);
  let dest := buildDestination destParachainId in
  let beneficiary := buildBeneficiary recipientPublicKey in
  let assets := buildNftAsset collectionId itemId in
  _ ← console_log (LF +:+ "Sending XCM reserve transfer...");
  let tx := PolkadotXcm_limited_reserve_transfer_assets
              {| dest := dest;
                 beneficiary := beneficiary;
                 assets := assets;
                 fee_asset_item := 0;
                 weight_limit := Unlimited |} in
  result ← await client (signAndSubmit tx signer);
  _ ← console_log (LF +:+ "Transaction included in block: "
                    +:+ block_hash result);
  _ ← for_of (events result) log_event;
  mret result.

(** Also [queryNftOwner] of [scripts/setup-collections.js]. *)
Definition queryNftOwner (client : Client) (collectionId itemId : Z)
  : Script string L (option string) :=
  returned ← try_catch
    (item ← await client (Nfts_Item_getValue collectionId itemId);
     match item with
     | Some item => mret (Some (owner item))
     | None => mret None
     end)
    (fun e => mret None);
  match returned with
  | Some address => mret (Some address)
  | None => mret None
  end.

Definition queryCollectionCount (client : Client) : Script string L Z :=
  try_catch
    (collections ← await client Nfts_Collection_getEntries;
     mret (Z.of_nat (length collections)))
    (fun e => mret 0).

End Effects.

End Typed.

(** ** Ledgers in memory

    Two chains held in memory, to run the scripts on concrete states: a
    chain stores the owner of every item and its collections, and may be
    unreachable or refuse a request ([fault]). *)

Module Memory.

Record Chain : Type := {
  items : gmap (Z * Z) Bytes;
  collections : list Z;
  fault : option JsError;
}.

Record Chains : Type := { chainA : Chain; chainB : Chain }.

Definition chain_of (w : Chains) (client : Client) : Chain :=
  match client with
  | clientA => chainA w
  | clientB => chainB w
  end.

Definition receipt : TxResult :=
  {| block_hash := "0x2a";
     events := [ {| type := "PolkadotXcm"; value_type := "Sent" |};
                 {| type := "XcmpQueue"; value_type := "XcmpMessageSent" |} ] |}.

Definition answer {R : Type} (w : Chains) (client : Client)
    (q : Request Bytes R) : Chains * Outcome R :=
  match fault (chain_of w client) with
  | Some e => (w, Rejected e)
  | None =>
      match q in Request _ R return Chains * Outcome R with
      | Nfts_Item_getValue collectionId itemId =>
          (w, Resolved (Build_ItemDetails
                          <$> items (chain_of w client) !! (collectionId, itemId)))
      | Nfts_Collection_getEntries =>
          (w, Resolved (collections (chain_of w client)))
      | signAndSubmit _ _ => (w, Resolved receipt)
      end
  end.

Definition ledger : Ledger Bytes :=
  {| World := Chains; respond := @answer |}.

Definition start (w : Chains) : State Bytes ledger :=
  @Build_State Bytes ledger w [] [].

(** The owner of an item on a chain. *)
Definition owner_on (w : Chains) (client : Client) (collectionId itemId : Z)
  : option Bytes :=
  items (chain_of w client) !! (collectionId, itemId).

Definition ss58 (key : Bytes) (prefix : Z) : string :=
  pretty prefix +:+ ":" +:+ string_of_list_byte key.

Definition alice : Signer :=
  {| publicKey := repeat x01 32; address := ss58 (repeat x01 32) 42 |}.
Definition bob : Signer :=
  {| publicKey := repeat x02 32; address := ss58 (repeat x02 32) 42 |}.
(** The account that holds items in reserve for parachain 1001. *)
Definition sovereign_1001 : Bytes := repeat x73 32.

Definition empty_chain : Chain :=
  {| items := ∅; collections := []; fault := None |}.

(** Item 1 of collection 0 is Alice's. *)
Definition minted : Chains :=
  {| chainA := {| items := {[ (0, 1) := publicKey alice ]};
                  collections := [0];
                  fault := None |};
     chainB := empty_chain |}.

(** A transfer is in flight: the item is held by the sovereign account. *)
Definition in_flight : Chains :=
  {| chainA := {| items := {[ (0, 1) := sovereign_1001 ]};
                  collections := [0];
                  fault := None |};
     chainB := empty_chain |}.

(** Chain A answers no request. *)
Definition faulty (e : JsError) : Chains :=
  {| chainA := {| items := {[ (0, 1) := publicKey alice ]};
                  collections := [0];
                  fault := Some e |};
     chainB := empty_chain |}.

End Memory.

(** ** The reserve registry *)

Module Registry.

#[global] Instance byte_eq_dec : EqDecision byte := Byte.byte_eq_dec.
#[global] Instance Junction_eq_dec : EqDecision Junction.
Proof. solve_decision. Defined.
#[global] Instance Location_eq_dec : EqDecision Location.
Proof. solve_decision. Defined.

(** Modelled from the spec: an entry of the registry.  The repository has no
    registry code; the README only names its storage map, [ForeignNfts],
    from locations to collection ids. *)
Record ReserveRegistryEntry : Type := {
  foreignLocation : Location;
  localCollectionId : Z;
}.

(** Modelled from the spec: the registry is an append-only log of entries,
    oldest first (the register operation is missing from src/). *)
Definition ReserveRegistry : Type := list ReserveRegistryEntry.

(** Modelled from the spec: the two ways [register] fails. *)
Inductive RegistryError : Type :=
| AlreadyMapped
| CollectionInUse.

(** Modelled from the spec: [resolve(foreignLocation)], missing from src/. *)
Definition resolve (reg : ReserveRegistry) (loc : Location) : option Z :=
  localCollectionId
    <$> find (fun e => bool_decide (foreignLocation e = loc)) reg.

(** Modelled from the spec: [resolveReverse(localCollectionId)], missing
    from src/. *)
Definition resolveReverse (reg : ReserveRegistry) (collection : Z)
  : option Location :=
  foreignLocation
    <$> find (fun e => bool_decide (localCollectionId e = collection)) reg.

(** Modelled from the spec: [register(foreignLocation, localCollectionId)],
    missing from src/.  It fails with [AlreadyMapped] when the location has
    an entry, with [CollectionInUse] when the collection is the target of
    another location, and appends the entry otherwise. *)
Definition register (reg : ReserveRegistry) (loc : Location) (collection : Z)
  : Result ReserveRegistry RegistryError :=
  match resolve reg loc with
  | Some _ => Err AlreadyMapped
  | None =>
      match resolveReverse reg collection with
      | Some _ => Err CollectionInUse
      | None => Ok (reg ++ [ {| foreignLocation := loc;
                                localCollectionId := collection |} ])
      end
  end.

(** The registries that calls of [register] build from the empty one. *)
Inductive reachable : ReserveRegistry -> Prop :=
| reachable_empty : reachable []
| reachable_register reg loc collection reg' :
    reachable reg ->
    register reg loc collection = Ok reg' ->
    reachable reg'.

(** No two locations resolve to one collection. *)
Definition injective (reg : ReserveRegistry) : Prop :=
  forall loc1 loc2 collection,
    resolve reg loc1 = Some collection ->
    resolve reg loc2 = Some collection ->
    loc1 = loc2.

End Registry.

(** ** The transfer state machine *)

Module Orchestrator.

(** Modelled from the spec: the reasons of a terminal failure (the
    repository has no transfer state machine; [main] waits a fixed twelve
    seconds after submitting). *)
Inductive FailureReason : Type :=
| SubmissionRejected
| TimedOut
| DuplicateSubmission.

(** Modelled from the spec: the states of a transfer, missing from src/. *)
Inductive Status : Type :=
| Building
| Signed
| Submitted
| AwaitingInclusion
| AwaitingRemoteConfirmation
| Settled
| Failed (reason : FailureReason).

(** Modelled from the spec: a transfer request, missing from src/. *)
Record TransferRequest : Type := {
  collectionId : Z;
  itemId : Z;
  sourceAccount : Bytes;
  destinationChainId : Z;
  destinationAccount : Bytes;
  deadline : Z;
}.

(** Modelled from the spec: the handle [submit] returns and [poll] takes,
    missing from src/. *)
Record Handle : Type := { request : TransferRequest; status : Status }.

(** Modelled from the spec: what the observer can see on the two ledgers
    when [poll] runs, missing from src/. *)
Record Observation : Type := {
  now : Z;
  included : bool;
  rejected : bool;
  derivative_observed : bool;
}.

(** Modelled from the spec: the observer queries [poll] performs, its only
    side effects. *)
Inductive Query : Type :=
| QuerySource (collection item : Z)
| QueryDestination (collection item : Z).

Definition terminal (s : Status) : bool :=
  match s with
  | Settled | Failed _ => true
  | _ => false
  end.

Definition with_status (h : Handle) (s : Status) : Handle :=
  {| request := request h; status := s |}.

(** Modelled from the spec: [poll(handle)], missing from src/.  From
    [Submitted] it looks at the source ledger, from [AwaitingInclusion] at
    the destination ledger; the spec gives no transition from the other
    states, which [poll] leaves as they are. *)
Definition poll (o : Observation) (h : Handle) : Handle * list Query :=
  let r := request h in
  match status h with
  | Submitted =>
      (with_status h
         (if included o then AwaitingInclusion
          else if rejected o then Failed SubmissionRejected
          else Submitted),
       [QuerySource (collectionId r) (itemId r)])
  | AwaitingInclusion =>
      (with_status h
         (if derivative_observed o then Settled
          else if deadline r <? now o then Failed TimedOut
          else AwaitingInclusion),
       [QueryDestination (collectionId r) (itemId r)])
  | _ => (h, [])
  end.

(** Successive calls of [poll], one per observation, with all the queries
    they perform. *)
Fixpoint polls (os : list Observation) (h : Handle) : Handle * list Query :=
  match os with
  | [] => (h, [])
  | o :: os' =>
      let (h', qs) := poll o h in
      let (h'', qs') := polls os' h' in
      (h'', qs ++ qs')
  end.

End Orchestrator.

(** ** [main] of [scripts/transfer-nft.js] on the unsafe API *)

Module UntypedMain.

Definition PARACHAIN_A_WS : string := "ws://127.0.0.1:9944".
Definition PARACHAIN_B_WS : string := "ws://127.0.0.1:9945".

(** [s.repeat(n)] *)
Definition String_repeat (s : string) (n : nat) : string :=
  String.concat "" (repeat s n).

(** [value || fallback] on a string that may be [null]: [null] and the empty
    string are falsy. *)
Definition or_else (value : option string) (fallback : string) : string :=
  match value with
  | Some (String c s) => String c s
  | Some EmptyString => fallback
  | None => fallback
  end.

(** [if (value)] on a string that may be [null]. *)
Definition truthy (value : option string) : bool :=
  match value with
  | Some (String _ _) => true
  | Some EmptyString => false
  | None => false
  end.

Section Main.

Variable L : Ledger Bytes.
(** [ss58Encode] of [@polkadot-api/ss58]. *)
Variable ss58Encode : Bytes -> Z -> string.
(** The public key of [sr25519CreateDerive(miniSecret)(derivationPath)], the
    mini secret being the one of [DEV_PHRASE]. *)
Variable derive : string -> Bytes.
(** [createClient(getWsProvider(endpoint))]: the client of an endpoint. *)
Variable createClient : string -> Client.
(** [error.message] and [error.stack]. *)
Variable message : JsError -> string.
Variable stack : JsError -> string.

Definition createSigner (derivationPath : string) : Signer :=
  let keyPair := derive derivationPath in
  {| publicKey := keyPair;
     address := ss58Encode keyPair Untyped.SS58_PREFIX |}.

(** [await new Promise((resolve) => setTimeout(resolve, ms))]: the wait
    changes nothing of the state; time is not part of it. *)
Definition sleep (ms : Z) : Script Bytes L unit := mret tt.

Definition connectToParachain (endpoint name : string)
  : Script Bytes L Client :=
  _ ← console_log ("Connecting to " +:+ name +:+ " at " +:+ endpoint
                    +:+ "...");
  let client := createClient endpoint in
  _ ← sleep 1000;
  _ ← console_log ("Connected to " +:+ name);
  mret client.

Definition closing_note : string :=
"
The NFT transfer was initiated from Parachain A to Parachain B using
XCM reserve transfer. The NonFungibleAdapter handles:

1. Withdrawing the NFT from the sender on the source chain
2. Depositing/locking it in the sovereign account
3. Sending an XCM message to the destination chain
4. The destination chain processes the XCM and mints/credits the NFT

For production use, you would also need to configure:
- Foreign asset registries to track NFTs from other chains
- Collection mappings between chains
- Proper fee handling for XCM execution
        ".

(** The [try] block of [main]; it returns the two clients it has assigned,
    [clientA] and [clientB] of the source, here [cA] and [cB]. *)
Definition main_try (alice bob : Signer) : Script Bytes L (Client * Client) :=
  cA ← connectToParachain PARACHAIN_A_WS "Parachain A (Source)";
  cB ← connectToParachain PARACHAIN_B_WS "Parachain B (Destination)";
  let collectionId := 0 in
  let itemId := 1 in
  _ ← console_log (LF +:+ "--- Before Transfer ---");
  ownerBefore ← Untyped.queryNftOwner L ss58Encode cA collectionId itemId;
  _ ← console_log ("NFT #" +:+ pretty itemId +:+ " owner on Parachain A: "
                    +:+ or_else ownerBefore "Not found");
  _ ← console_log (LF +:+ "--- Executing Cross-Chain Transfer ---");
  _ ← Untyped.transferNftToSibling L ss58Encode cA alice collectionId
        itemId Untyped.PARACHAIN_B_ID (publicKey bob);
  _ ← console_log (LF +:+ "Waiting for XCM message to be processed...");
  _ ← sleep 12000;
  _ ← console_log (LF +:+ "--- After Transfer ---");
  ownerAfterA ← Untyped.queryNftOwner L ss58Encode cA collectionId itemId;
  _ ← (if truthy ownerAfterA then
         _ ← console_log ("NFT #" +:+ pretty itemId
                           +:+ " on Parachain A: Still owned by "
                           +:+ or_else ownerAfterA "");
         console_log "  (NFT is held in reserve for the cross-chain transfer)"
       else
         console_log ("NFT #" +:+ pretty itemId
                       +:+ " on Parachain A: Transferred/Locked"));
  _ ← console_log (LF +:+ "Checking Parachain B for received NFT...");
  collectionCount ← Untyped.queryCollectionCount L cB;
  _ ← console_log ("Total collections on Parachain B: "
                    +:+ pretty collectionCount);
  _ ← console_log (LF +:+ String_repeat "=" 60);
  _ ← console_log "Transfer Complete!";
  _ ← console_log (String_repeat "=" 60);
  _ ← console_log closing_note;
  mret (cA, cB).

(** How the process ends: the state of the script, what [console.error]
    wrote, the clients destroyed by the [finally] block and the code given to
    [process.exit], if it was called. *)
Record Exit : Type := {
  final : State Bytes L;
  stderr : list string;
  destroyed : list Client;
  exit_code : option Z;
}.

(** [process.exit(1)] in the [catch] block ends the process there: the
    [finally] block runs only when the [try] block completes. *)
Definition main (st : State Bytes L) : Exit :=
  let alice := createSigner "//Alice" in
  let bob := createSigner "//Bob" in
  let banner : Script Bytes L unit :=
    _ ← console_log (String_repeat "=" 60);
    _ ← console_log "Cross-Chain NFT Transfer Demo (using PAPI)";
    _ ← console_log "Using NonFungibleAdapter with Reserve Transfers";
    _ ← console_log (String_repeat "=" 60);
    _ ← console_log (LF +:+ "Alice (sender): " +:+ address alice);
    console_log ("Bob (recipient): " +:+ address bob) in
  match (_ ← banner; main_try alice bob) st with
  | (st', Returned (cA, cB)) =>
      {| final := st';
         stderr := [];
         destroyed := [cA; cB];
         exit_code := None |}
  | (st', Threw error) =>
      {| final := st';
         stderr := [LF +:+ "Error: " +:+ message error; stack error];
         destroyed := [];
         exit_code := Some 1 |}
  end.

End Main.

End UntypedMain.

(** ** [scripts/setup-collections.js] on the typed API

    The script has requests of its own (the three [Nfts] calls) and reads the
    collection id off an event, so it has its own requests and states; the
    effects are those of the transfer script. *)

Module Setup.

Definition PARACHAIN_A_WS_default : string := "ws://127.0.0.1:61070".
Definition PARACHAIN_B_WS_default : string := "ws://127.0.0.1:61074".
Definition SS58_PREFIX : Z := 42.

(** [{ type: "Issuer" }] *)
Inductive MintType : Type := Issuer.

Record MintSettings : Type := {
  mint_type : MintType;
  price : option Z;
  start_block : option Z;
  end_block : option Z;
  default_item_settings : Z;
}.

Record CollectionConfig : Type := {
  settings : Z;
  max_supply : option Z;
  mint_settings : MintSettings;
}.

(** [{ type: "Id", value }] *)
Inductive MultiAddress : Type := Id (value : string).

(** The calls [api.tx.Nfts.create], [api.tx.Nfts.mint] and
    [api.tx.Nfts.set_metadata]. *)
Inductive Tx : Type :=
| Nfts_create (admin : MultiAddress) (config : CollectionConfig)
| Nfts_mint (collection item : Z) (mint_to : MultiAddress)
    (witness_data : option unit)
| Nfts_set_metadata (collection item : Z) (data : string).

(** An event: [event.type], [event.value.type] and
    [event.value.value.collection], which the script reads on a [Created]
    event only. *)
Record TxEvent : Type := {
  type : string;
  value_type : string;
  value_collection : Z;
}.

Record TxResult : Type := { block_hash : string; events : list TxEvent }.

(** The tests of the two loops over [result.events]. *)
Definition is_Created (event : TxEvent) : bool :=
  String.eqb (type event) "Nfts" && String.eqb (value_type event) "Created".

Definition is_Issued (event : TxEvent) : bool :=
  String.eqb (type event) "Nfts" && String.eqb (value_type event) "Issued".

(** On the typed API [item.owner] is an address. *)
Record ItemDetails : Type := { owner : string }.

Inductive Request : Type -> Type :=
| Nfts_Item_getValue (collectionId itemId : Z) : Request (option ItemDetails)
| signAndSubmit (tx : Tx) (signer : Signer) : Request TxResult.

Inductive Sent : Type :=
| Send {R : Type} (api : Client) (q : Request R).


Record Ledger : Type := {
  World : Type;
  respond : forall R, World -> Client -> Request R -> World * Outcome R;
}.

Section Api.

Variable L : Ledger.

Record State : Type := {
  world : World L;
  sent : list Sent;
  console : list string;
}.

Definition Script (A : Type) : Type := State -> State * Completion A.

#[global] Instance Script_ret : MRet Script :=
  fun A a st => (st, Returned a).

#[global] Instance Script_bind : MBind Script :=
  fun A B k m st =>
    match m st with
    | (st', Returned a) => k a st'
    | (st', Threw e) => (st', Threw e)
    end.

Definition await {R : Type} (api : Client) (q : Request R) : Script R :=
  fun st =>
    let (w, o) := respond L R (world st) api q in
    let st' := {| world := w;
                  sent := sent st ++ [Send api q];
                  console := console st |} in
    match o with
    | Resolved r => (st', Returned r)
    | Rejected e => (st', Threw e)
    end.

Definition after_request {R : Type} (st : State) (api : Client)
    (q : Request R) : State :=
  {| world := fst (respond L R (world st) api q);
     sent := sent st ++ [Send api q];
     console := console st |}.

Definition after_logs (st : State) (lines : list string) : State :=
  {| world := world st; sent := sent st; console := console st ++ lines |}.

Definition try_catch {A : Type} (body : Script A)
    (handler : JsError -> Script A) : Script A :=
  fun st =>
    match body st with
    | (st', Returned a) => (st', Returned a)
    | (st', Threw e) => handler e st'
    end.

Definition console_log (line : string) : Script unit :=
  fun st =>
    ({| world := world st;
        sent := sent st;
        console := console st ++ [line] |}, Returned tt).

(** [for (const x of xs) { body }] where the body may [return]: the body
    gives [Some v] when it returns [v] from the function, [None] when it
    runs to its end. *)
Fixpoint for_of_return {X A : Type} (xs : list X)
    (body : X -> Script (option A)) : Script (option A) :=
  match xs with
  | [] => mret None
  | x :: xs' =>
      returned ← body x;
      match returned with
      | Some v => mret (Some v)
      | None => for_of_return xs' body
      end
  end.

(** [await new Promise((resolve) => setTimeout(resolve, ms))] *)
Definition sleep (ms : Z) : Script unit := mret tt.

Definition createCollection (api : Client) (signer : Signer) (admin : string)
  : Script (option Z) :=
  _ ← console_log "Creating NFT collection...";
  let tx := Nfts_create (Id admin)
              {| settings := 0;
                 max_supply := None;
                 mint_settings := {| mint_type := Issuer;
                                     price := None;
                                     start_block := None;
                                     end_block := None;
                                     default_item_settings := 0 |} |} in
  result ← await api (signAndSubmit tx signer);
  _ ← console_log ("Transaction included in block: " +:+ block_hash result);
  returned ← for_of_return (events result) (fun event =>
    if String.eqb (type event) "Nfts"
       && String.eqb (value_type event) "Created" then
      let collectionId := value_collection event in
      _ ← console_log ("Collection created with ID: " +:+ pretty collectionId);
      mret (Some collectionId)
    else mret None);
  match returned with
  | Some collectionId => mret (Some collectionId)
  | None => mret None
  end.

Definition mintNft (api : Client) (signer : Signer) (collectionId itemId : Z)
    (mintTo : string) : Script bool :=
  _ ← console_log ("Minting NFT #" +:+ pretty itemId +:+ " in collection #"
                    +:+ pretty collectionId +:+ "...");
  let tx := Nfts_mint collectionId itemId (Id mintTo) None in
  result ← await api (signAndSubmit tx signer);
  _ ← console_log ("NFT minted! Block: " +:+ block_hash result);
  returned ← for_of_return (events result) (fun event =>
    if String.eqb (type event) "Nfts"
       && String.eqb (value_type event) "Issued" then
      _ ← console_log ("NFT #" +:+ pretty itemId +:+ " issued successfully");
      mret (Some true)
    else mret None);
  match returned with
  | Some b => mret b
  | None => mret false
  end.

Definition setMetadata (api : Client) (signer : Signer) (collectionId itemId : Z)
    (metadata : string) : Script bool :=
  _ ← console_log ("Setting metadata for NFT #" +:+ pretty itemId +:+ "...");
  let tx := Nfts_set_metadata collectionId itemId metadata in
  result ← await api (signAndSubmit tx signer);
  _ ← console_log ("Metadata set! Block: " +:+ block_hash result);
  mret true.

Definition queryNftOwner (api : Client) (collectionId itemId : Z)
  : Script (option string) :=
  returned ← try_catch
    (item ← await api (Nfts_Item_getValue collectionId itemId);
     match item with
     | Some item => mret (Some (owner item))
     | None => mret None
     end)
    (fun e => mret None);
  match returned with
  | Some address => mret (Some address)
  | None => mret None
  end.

(** The call [createCollection] submits. *)
Definition create_tx (admin : string) : Tx :=
  Nfts_create (Id admin)
    {| settings := 0;
       max_supply := None;
       mint_settings := {| mint_type := Issuer;
                           price := None;
                           start_block := None;
                           end_block := None;
                           default_item_settings := 0 |} |}.

(** A script that adds to the requests sent, and only requests that satisfy
    [P]. *)
Definition sends_only {A : Type} (P : Sent -> Prop) (m : Script A) : Prop :=
  forall st, exists more,
    sent (fst (m st)) = sent st ++ more /\ Forall P more.

(** [`${value}`] on a number or [null], and on a string or [null]. *)
Definition show_id (value : option Z) : string :=
  match value with
  | Some n => pretty n
  | None => "null"
  end.

Definition show_owner (value : option string) : string :=
  match value with
  | Some s => s
  | None => "null"
  end.

(** The public key of the pair derived from [DEV_PHRASE], the address
    [withNetworkAccount] gives it, the client of an endpoint, the
    environment variables [PARA_A_WS] and [PARA_B_WS], and [error.message],
    [error.stack]. *)
Variable derive : string -> Bytes.
Variable ss58Address : Bytes -> Z -> string.
Variable createClient : string -> Client.
Variable PARA_A_WS : option string.
Variable PARA_B_WS : option string.
Variable message : JsError -> string.
Variable stack : JsError -> string.

(** [process.env.PARA_A_WS || "ws://127.0.0.1:61070"] *)
Definition PARACHAIN_A_WS : string :=
  match PARA_A_WS with
  | Some (String c s) => String c s
  | _ => PARACHAIN_A_WS_default
  end.

Definition PARACHAIN_B_WS : string :=
  match PARA_B_WS with
  | Some (String c s) => String c s
  | _ => PARACHAIN_B_WS_default
  end.

Definition createSigner (derivationPath : string) : Signer :=
  let keyPair := derive derivationPath in
  {| publicKey := keyPair; address := ss58Address keyPair SS58_PREFIX |}.

(** It returns [{ client, api }]; the typed API of a client is named by the
    client. *)
Definition connectToParachain (endpoint name : string)
  : Script (Client * Client) :=
  _ ← console_log ("Connecting to " +:+ name +:+ " at " +:+ endpoint
                    +:+ "...");
  let client := createClient endpoint in
  let api := client in
  _ ← sleep 2000;
  _ ← console_log ("Connected to " +:+ name);
  mret (client, api).

Definition String_repeat (s : string) (n : nat) : string :=
  String.concat "" (repeat s n).

(** The [try] block of [main]; it returns the two clients it has assigned. *)
Definition main_try (alice bob : Signer) : Script (Client * Client) :=
  connA ← connectToParachain PARACHAIN_A_WS "Parachain A";
  connB ← connectToParachain PARACHAIN_B_WS "Parachain B";
  let cA := fst connA in
  let cB := fst connB in
  let apiA := snd connA in
  let apiB := snd connB in
  _ ← console_log (LF +:+ "--- Setting up Parachain A ---");
  collectionIdA ← createCollection apiA alice (address alice);
  _ ← match collectionIdA with
      | Some collectionIdA =>
          _ ← mintNft apiA alice collectionIdA 1 (address alice);
          _ ← mintNft apiA alice collectionIdA 2 (address alice);
          _ ← mintNft apiA alice collectionIdA 3 (address bob);
          _ ← setMetadata apiA alice collectionIdA 1
                "NFT #1 - Ready for XCM transfer";
          _ ← setMetadata apiA alice collectionIdA 2
                "NFT #2 - Cross-chain demo";
          mret tt
      | None => mret tt
      end;
  _ ← console_log (LF +:+ "--- Setting up Parachain B ---");
  collectionIdB ← createCollection apiB bob (address bob);
  _ ← match collectionIdB with
      | Some collectionIdB =>
          _ ← mintNft apiB bob collectionIdB 1 (address bob);
          _ ← setMetadata apiB bob collectionIdB 1 "Local NFT on Parachain B";
          mret tt
      | None => mret tt
      end;
  _ ← console_log (LF +:+ "--- Summary ---");
  _ ← console_log ("Parachain A Collection ID: " +:+ show_id collectionIdA);
  _ ← match collectionIdA with
      | Some collectionIdA =>
          owner1 ← queryNftOwner apiA collectionIdA 1;
          _ ← console_log ("  - NFT #1 owner: " +:+ show_owner owner1);
          owner2 ← queryNftOwner apiA collectionIdA 2;
          _ ← console_log ("  - NFT #2 owner: " +:+ show_owner owner2);
          owner3 ← queryNftOwner apiA collectionIdA 3;
          console_log ("  - NFT #3 owner: " +:+ show_owner owner3)
      | None => mret tt
      end;
  _ ← console_log ("Parachain B Collection ID: " +:+ show_id collectionIdB);
  _ ← match collectionIdB with
      | Some collectionIdB =>
          owner1 ← queryNftOwner apiB collectionIdB 1;
          console_log ("  - NFT #1 owner: " +:+ show_owner owner1)
      | None => mret tt
      end;
  _ ← console_log (LF +:+ String_repeat "=" 60);
  _ ← console_log "Setup complete! You can now run the transfer script.";
  _ ← console_log (String_repeat "=" 60);
  mret (cA, cB).

Record Exit : Type := {
  final : State;
  stderr : list string;
  destroyed : list Client;
  exit_code : option Z;
}.

(** [process.exit(1)] in the [catch] block ends the process there: the
    [finally] block runs only when the [try] block completes. *)
Definition main (st : State) : Exit :=
  let alice := createSigner "//Alice" in
  let bob := createSigner "//Bob" in
  let banner : Script unit :=
    _ ← console_log (String_repeat "=" 60);
    _ ← console_log "NFT Collection Setup Script (using PAPI with typed API)";
    _ ← console_log (String_repeat "=" 60);
    _ ← console_log ("Alice address: " +:+ address alice);
    _ ← console_log ("Bob address: " +:+ address bob);
    console_log "" in
  match (_ ← banner; main_try alice bob) st with
  | (st', Returned (cA, cB)) =>
      {| final := st';
         stderr := [];
         destroyed := [cA; cB];
         exit_code := None |}
  | (st', Threw error) =>
      {| final := st';
         stderr := ["Error: " +:+ message error; stack error];
         destroyed := [];
         exit_code := Some 1 |}
  end.

End Api.

Arguments respond _ {R} _ _ _.
Arguments world {L} _.
Arguments sent {L} _.
Arguments console {L} _.
Arguments Build_State {L} world sent console.
Arguments await {L R} api q.
Arguments after_request {L R} st api q.
Arguments after_logs {L} st lines.
Arguments console_log {L} line.
Arguments sends_only {L A} P m.
Arguments final {L} _.
Arguments stderr {L} _.
Arguments destroyed {L} _.
Arguments exit_code {L} _.

End Setup.

(** ** Ledgers in memory for the setup script

    A chain numbers its collections from 0, records the owner of every item
    minted and answers each call with the event of the pallet; it may be
    unreachable ([fault]) or answer a [create] with no event ([quiet]). *)

Module SetupMemory.

Record Chain : Type := {
  next_collection : Z;
  items : gmap (Z * Z) string;
  fault : option JsError;
  quiet : bool;
}.

Record Chains : Type := { chainA : Chain; chainB : Chain }.

Definition chain_of (w : Chains) (api : Client) : Chain :=
  match api with
  | clientA => chainA w
  | clientB => chainB w
  end.

Definition with_chain (w : Chains) (api : Client) (c : Chain) : Chains :=
  match api with
  | clientA => {| chainA := c; chainB := chainB w |}
  | clientB => {| chainA := chainA w; chainB := c |}
  end.

Definition event (name : string) (collection : Z) : Setup.TxEvent :=
  {| Setup.type := "Nfts";
     Setup.value_type := name;
     Setup.value_collection := collection |}.

Definition submit (c : Chain) (tx : Setup.Tx) : Chain * Setup.TxResult :=
  match tx with
  | Setup.Nfts_create _ _ =>
      ({| next_collection := next_collection c + 1;
          items := items c;
          fault := fault c;
          quiet := quiet c |},
       {| Setup.block_hash := "0x01";
          Setup.events := if quiet c then []
                          else [ event "Created" (next_collection c) ] |})
  | Setup.Nfts_mint collection item (Setup.Id mint_to) _ =>
      ({| next_collection := next_collection c;
          items := <[ (collection, item) := mint_to ]> (items c);
          fault := fault c;
          quiet := quiet c |},
       {| Setup.block_hash := "0x02";
          Setup.events := [ event "Issued" collection ] |})
  | Setup.Nfts_set_metadata collection item _ =>
      (c,
       {| Setup.block_hash := "0x03";
          Setup.events := [ event "ItemMetadataSet" collection ] |})
  end.

Definition answer {R : Type} (w : Chains) (api : Client)
    (q : Setup.Request R) : Chains * Outcome R :=
  match fault (chain_of w api) with
  | Some e => (w, Rejected e)
  | None =>
      match q in Setup.Request R return Chains * Outcome R with
      | Setup.Nfts_Item_getValue collectionId itemId =>
          (w, Resolved (Setup.Build_ItemDetails
                          <$> items (chain_of w api) !! (collectionId, itemId)))
      | Setup.signAndSubmit tx _ =>
          let (c, receipt) := submit (chain_of w api) tx in
          (with_chain w api c, Resolved receipt)
      end
  end.

Definition ledger : Setup.Ledger :=
  {| Setup.World := Chains; Setup.respond := @answer |}.

Definition start (w : Chains) : Setup.State ledger :=
  @Setup.Build_State ledger w [] [].

Definition fresh_chain : Chain :=
  {| next_collection := 0; items := ∅; fault := None; quiet := false |}.

Definition fresh : Chains := {| chainA := fresh_chain; chainB := fresh_chain |}.

(** Chain A refuses every request. *)
Definition refusing (e : JsError) : Chains :=
  {| chainA := {| next_collection := 0; items := ∅; fault := Some e;
                  quiet := false |};
     chainB := fresh_chain |}.


End SetupMemory.

(** ** What [transferNftToSibling] writes to the console *)

Module Transcript.

(** The lines before the submission. *)
Definition announcement (ss58Encode : Bytes -> Z -> string)
    (collectionId itemId destParachainId : Z) (recipientPublicKey : Bytes)
  : list string :=
  [ LF +:+ "Initiating NFT transfer...";
    "  Collection: " +:+ pretty collectionId;
    "  Item: " +:+ pretty itemId;
    "  Destination: Parachain " +:+ pretty destParachainId;
    "  Recipient: " +:+ ss58Encode recipientPublicKey Untyped.SS58_PREFIX;
    LF +:+ "Sending XCM reserve transfer..." ].

(** The lines of one round of the loop over [result.events]. *)
Definition event_lines (event : TxEvent) : list string :=
  (if String.eqb (type event) "PolkadotXcm" then
     ("  Event: PolkadotXcm." +:+ value_type event)
     :: (if String.eqb (value_type event) "Sent"
         then [ "  XCM message sent successfully!" ] else [])
   else [])
  ++ (if String.eqb (type event) "XcmpQueue"
      then [ "  Event: XcmpQueue." +:+ value_type event ] else []).

(** The lines after a submission that resolved. *)
Definition report (result : TxResult) : list string :=
  (LF +:+ "Transaction included in block: " +:+ block_hash result)
  :: concat (map event_lines (events result)).

(** An event [PolkadotXcm.Sent]. *)
Definition is_Sent (event : TxEvent) : bool :=
  String.eqb (type event) "PolkadotXcm"
  && String.eqb (value_type event) "Sent".

End Transcript.

(** ** Values to run [main] on the ledgers in memory *)

Module Fixtures.

Definition derive (derivationPath : string) : Bytes :=
  if String.eqb derivationPath "//Alice" then publicKey Memory.alice
  else publicKey Memory.bob.

Definition createClient (endpoint : string) : Client :=
  if String.eqb endpoint UntypedMain.PARACHAIN_A_WS then clientA else clientB.

Definition createSetupClient (endpoint : string) : Client :=
  if String.eqb endpoint Setup.PARACHAIN_A_WS_default then clientA
  else clientB.

Definition message (e : JsError) : string :=
  match e with
  | ConnectionError => "connection lost"
  | MalformedQuery => "malformed query"
  | InvalidTransaction => "invalid transaction"
  | Thrown m => m
  end.

Definition stack (e : JsError) : string := "Error: " +:+ message e.

End Fixtures.

(** The shape the matcher recognises. *)
Definition nft_location (a : Asset) : Prop :=
  exists collection,
    id a = {| parents := 0;
              interior := [ PalletInstance 51; GeneralIndex collection ] |}.

Definition nft_fungibility (a : Asset) : Prop :=
  exists item, fun_ a = NonFungible (Index item).

Definition sibling_origin (origin : Location) : Prop :=
  exists X, origin = {| parents := 1; interior := [ Parachain X ] |}.

Definition non_fungible (a : Asset) : Prop :=
  exists instance, fun_ a = NonFungible instance.

(** ** The matcher *)

Lemma as_u32_small x : 0 <= x < 2 ^ 32 -> as_u32 x = x.
Proof. intros H. unfold as_u32. apply Z.mod_small. exact H. Qed.

Lemma as_u32_range x : 0 <= as_u32 x < 2 ^ 32.
Proof. unfold as_u32. apply Z.mod_pos_bound. lia. Qed.

(** On the recognised shape the matcher answers with both ids cast to
    [u32]. *)
Lemma matches_nonfungibles_shape collection item :
  matches_nonfungibles
    {| id := {| parents := 0;
                interior := [ PalletInstance 51; GeneralIndex collection ] |};
       fun_ := NonFungible (Index item) |}
  = Ok (as_u32 collection, as_u32 item).
Proof. reflexivity. Qed.

(** Every answer other than the catch-all arm comes from the recognised
    shape. *)
Lemma matches_nonfungibles_inv a :
  matches_nonfungibles a <> Err AssetNotHandled ->
  nft_location a /\ nft_fungibility a.
Proof.
  destruct a as [[p js] f]. unfold matches_nonfungibles, unpack. simpl.
  intros H.
  repeat match type of H with
         | context [match ?x with _ => _ end] =>
             destruct x; try (exfalso; apply H; reflexivity)
         end.
  split; [eexists | eexists]; reflexivity.
Qed.

Lemma matches_nonfungibles_never_out_of_range a :
  matches_nonfungibles a <> Err OutOfRange.
Proof.
  destruct a as [[p js] f]. unfold matches_nonfungibles, unpack. simpl.
  repeat case_match; discriminate.
Qed.

(** C1 (round trip): for every collection id and item id that fit in the
    32 bits of [CollectionId] and [ItemId], the asset that [buildNftAsset]
    puts in the message (the same one in both variants of the script) is
    matched by [NftsMatcher] as exactly that pair. *)
Theorem buildNftAsset_roundtrip (c i : Z) :
  0 <= c < 2 ^ 32 ->
  0 <= i < 2 ^ 32 ->
  exists a,
    Untyped.buildNftAsset c i = V4 [a] /\
    Typed.buildNftAsset c i = V4 [a] /\
    matches_nonfungibles a = Ok (c, i).
Proof.
  intros Hc Hi. eexists. split; [reflexivity |]. split; [reflexivity |].
  unfold BigInt, Untyped.NFTS_PALLET_INDEX.
  rewrite matches_nonfungibles_shape.
  rewrite (as_u32_small c Hc), (as_u32_small i Hi). reflexivity.
Qed.

Lemma buildNftAsset_roundtrip_witness :
  exists a,
    Untyped.buildNftAsset 0 1 = V4 [a] /\
    Typed.buildNftAsset 0 1 = V4 [a] /\
    matches_nonfungibles a = Ok (0, 1).
Proof. apply (buildNftAsset_roundtrip 0 1); lia. Defined.

(** C2, as the code has it: an asset of the NFT shape is always matched, and
    the matcher answers with each id cast to [u32], that is reduced modulo
    [2^32]; [OutOfRange] is never its answer. *)
Theorem matches_nonfungibles_wraps (a : Asset) (collection item : Z) :
  id a = {| parents := 0;
            interior := [ PalletInstance 51; GeneralIndex collection ] |} ->
  fun_ a = NonFungible (Index item) ->
  matches_nonfungibles a = Ok (collection mod 2 ^ 32, item mod 2 ^ 32) /\
  matches_nonfungibles a <> Err OutOfRange.
Proof.
  intros Hid Hfun. destruct a as [l f]. simpl in Hid, Hfun. subst l f.
  split; [apply matches_nonfungibles_shape | discriminate].
Qed.

Lemma matches_nonfungibles_wraps_witness :
  matches_nonfungibles
    {| id := {| parents := 0;
                interior := [ PalletInstance 51; GeneralIndex (2 ^ 32) ] |};
       fun_ := NonFungible (Index (2 ^ 32 + 7)) |}
  = Ok (2 ^ 32 mod 2 ^ 32, (2 ^ 32 + 7) mod 2 ^ 32) /\
  matches_nonfungibles
    {| id := {| parents := 0;
                interior := [ PalletInstance 51; GeneralIndex (2 ^ 32) ] |};
       fun_ := NonFungible (Index (2 ^ 32 + 7)) |}
  <> Err OutOfRange.
Proof.
  apply (matches_nonfungibles_wraps _ (2 ^ 32) (2 ^ 32 + 7)); reflexivity.
Defined.

(** C2 fails as stated: with [GeneralIndex = 2^32] and [Index = 2^32 + 7]
    the matcher does not answer [OutOfRange], it answers the truncated pair
    [(0, 7)]. *)
Lemma matches_nonfungibles_overflow_truncated :
  let a := {| id := {| parents := 0;
                       interior := [ PalletInstance 51; GeneralIndex (2 ^ 32) ] |};
              fun_ := NonFungible (Index (2 ^ 32 + 7)) |} in
  matches_nonfungibles a = Ok (0, 7) /\
  matches_nonfungibles a <> Err OutOfRange.
Proof. split; [reflexivity | discriminate]. Qed.

(** C3 (rejection): an asset whose location is not
    [(0, [PalletInstance(51), GeneralIndex(_)])], or whose fungibility is not
    [NonFungible(Index(_))], gets [Err(AssetNotHandled)]; the matcher is a
    function of the asset alone, defined on every asset. *)
Theorem matches_nonfungibles_rejects (a : Asset) :
  ~ nft_location a \/ ~ nft_fungibility a ->
  matches_nonfungibles a = Err AssetNotHandled.
Proof.
  intros Hshape.
  destruct (matches_nonfungibles a) as [pair | e] eqn:Hm.
  - exfalso.
    destruct (matches_nonfungibles_inv a) as [Hl Hf];
      [rewrite Hm; discriminate | tauto].
  - destruct e; [reflexivity |].
    exfalso. exact (matches_nonfungibles_never_out_of_range a Hm).
Qed.

Lemma matches_nonfungibles_rejects_witness :
  matches_nonfungibles
    {| id := {| parents := 0;
                interior := [ PalletInstance 51; GeneralIndex 0 ] |};
       fun_ := Fungible 5 |}
  = Err AssetNotHandled.
Proof.
  apply matches_nonfungibles_rejects. right.
  intros [item Hitem]. discriminate Hitem.
Defined.

(** ** The reserve filter *)

(** C5 (policy gating): [NftsFromSiblings] accepts exactly the pairs of an
    origin [(1, [Parachain(X)])] and an asset whose fungibility is
    [NonFungible(_)], whatever the instance; so it refuses every fungible
    asset, every origin whose [parents] is not 1 and every origin whose
    interior is not one [Parachain] junction. *)
Theorem contains_sibling_nonfungible (asset : Asset) (origin : Location) :
  (contains asset origin = true <->
   sibling_origin origin /\ non_fungible asset) /\
  (forall amount, fun_ asset = Fungible amount ->
                  contains asset origin = false) /\
  (parents origin <> 1 -> contains asset origin = false) /\
  ((forall X, interior origin <> [ Parachain X ]) ->
   contains asset origin = false).
Proof.
  destruct asset as [l f], origin as [p js].
  unfold contains, unpack, sibling_origin, non_fungible. simpl.
  split; [split |]; [| | split; [| split]].
  - intros Htrue. repeat case_match; try discriminate; subst; eauto.
  - intros [[X HX] [inst Hinst]]. injection HX as -> ->. subst f. reflexivity.
  - intros amount ->. repeat case_match; reflexivity.
  - intros Hp. repeat case_match; try reflexivity. lia.
  - intros Hjs. repeat case_match; try reflexivity; subst.
    exfalso. eapply Hjs. reflexivity.
Qed.

(** ** The scripts: what they send and how they complete *)

Section Scripts.

Context {Owner : Type} (L : Ledger Owner).

Lemma await_run {R : Type} (client : Client) (q : Request Owner R)
    (st : State Owner L) :
  await client q st =
  (after_request st client q,
   match snd (respond L (world st) client q) with
   | Resolved r => Returned r
   | Rejected e => Threw e
   end).
Proof.
  unfold await, after_request.
  destruct (respond L (world st) client q) as [w [r | e]]; reflexivity.
Qed.

Lemma console_log_run (line : string) (st : State Owner L) :
  console_log line st = (after_logs st [line], Returned tt).
Proof. reflexivity. Qed.

Lemma after_logs_nil (st : State Owner L) : after_logs st [] = st.
Proof. unfold after_logs. rewrite app_nil_r. destruct st; reflexivity. Qed.

Lemma after_logs_app (st : State Owner L) (l1 l2 : list string) :
  after_logs (after_logs st l1) l2 = after_logs st (l1 ++ l2).
Proof. unfold after_logs. simpl. rewrite <- app_assoc. reflexivity. Qed.

(** A loop whose body only logs, only logs. *)
Lemma for_of_only_logs {X : Type} (body : X -> Script Owner L unit)
    (xs : list X) :
  (forall x, only_logs (body x)) -> only_logs (for_of xs body).
Proof.
  intros Hbody.
  induction xs as [| x xs IH]; intros st.
  - exists []. unfold after_logs. simpl. rewrite app_nil_r.
    destruct st; reflexivity.
  - destruct (Hbody x st) as [l1 H1].
    destruct (IH (after_logs st l1)) as [l2 H2].
    exists (l1 ++ l2). simpl. unfold mbind, Script_bind.
    rewrite H1, H2, after_logs_app. reflexivity.
Qed.

Lemma only_logs_ret : only_logs (L := L) (mret tt).
Proof.
  intros st. exists []. unfold after_logs. simpl. rewrite app_nil_r.
  destruct st; reflexivity.
Qed.

Lemma only_logs_console_log (line : string) :
  only_logs (L := L) (console_log line).
Proof. intros st. exists [line]. reflexivity. Qed.

Lemma only_logs_bind (m1 m2 : Script Owner L unit) :
  only_logs m1 -> only_logs m2 -> only_logs (_ ← m1; m2).
Proof.
  intros H1 H2 st.
  destruct (H1 st) as [l1 E1]. destruct (H2 (after_logs st l1)) as [l2 E2].
  exists (l1 ++ l2). unfold mbind, Script_bind.
  rewrite E1, E2, after_logs_app. reflexivity.
Qed.

End Scripts.

Create HintDb scripts.
#[local] Hint Resolve only_logs_ret only_logs_console_log : scripts.

Lemma Untyped_log_event_only_logs (L : Ledger Bytes) (event : TxEvent) :
  only_logs (Untyped.log_event L event).
Proof.
  unfold Untyped.log_event.
  apply only_logs_bind.
  - destruct (String.eqb (type event) "PolkadotXcm"); auto with scripts.
    apply only_logs_bind; auto with scripts.
    destruct (String.eqb (value_type event) "Sent"); auto with scripts.
  - destruct (String.eqb (type event) "XcmpQueue"); auto with scripts.
Qed.

(** What [transferNftToSibling] sends. *)
Lemma Untyped_transferNftToSibling_run (L : Ledger Bytes)
    (ss58Encode : Bytes -> Z -> string) (client : Client) (signer : Signer)
    (collectionId itemId destParachainId : Z) (recipientPublicKey : Bytes)
    (st : State Bytes L) :
  let q := signAndSubmit
             (PolkadotXcm_limited_reserve_transfer_assets
                {| dest := Untyped.buildDestination destParachainId
                             recipientPublicKey;
                   beneficiary := Untyped.buildBeneficiary recipientPublicKey;
                   assets := Untyped.buildNftAsset collectionId itemId;
                   fee_asset_item := 0;
                   weight_limit := Unlimited |})
             signer in
  exists before after,
    Untyped.transferNftToSibling L ss58Encode client signer collectionId itemId
      destParachainId recipientPublicKey st
    = (after_logs (after_request (after_logs st before) client q) after,
       match snd (respond L (world st) client q) with
       | Resolved r => Returned r
       | Rejected e => Threw e
       end).
Proof.
  intros q. unfold Untyped.transferNftToSibling.
  unfold mbind, Script_bind. rewrite !console_log_run, !after_logs_app.
  fold q. rewrite await_run. simpl world.
  eexists.
  destruct (snd (respond L (world st) client q)) as [r | e].
  - rewrite console_log_run.
    match goal with
    | |- context [for_of (events r) _ ?s] =>
        destruct (for_of_only_logs L (Untyped.log_event L) (events r)
                    (Untyped_log_event_only_logs L) s) as [lines ->]
    end.
    rewrite after_logs_app. eexists. reflexivity.
  - exists []. rewrite after_logs_nil. reflexivity.
Qed.

Lemma Untyped_queryNftOwner_run (L : Ledger Bytes)
    (ss58Encode : Bytes -> Z -> string) (client : Client)
    (collectionId itemId : Z) (st : State Bytes L) :
  let q := Nfts_Item_getValue collectionId itemId in
  Untyped.queryNftOwner L ss58Encode client collectionId itemId st
  = (after_request st client q,
     Returned match snd (respond L (world st) client q) with
              | Resolved (Some item) =>
                  Some (ss58Encode (owner item) Untyped.SS58_PREFIX)
              | Resolved None => None
              | Rejected _ => None
              end).
Proof.
  intros q. unfold Untyped.queryNftOwner, try_catch.
  unfold mbind, Script_bind. fold q. rewrite await_run.
  destruct (snd (respond L (world st) client q)) as [[item |] | e];
    reflexivity.
Qed.

Lemma Typed_queryNftOwner_run (L : Ledger string) (client : Client)
    (collectionId itemId : Z) (st : State string L) :
  let q := Nfts_Item_getValue collectionId itemId in
  Typed.queryNftOwner L client collectionId itemId st
  = (after_request st client q,
     Returned match snd (respond L (world st) client q) with
              | Resolved (Some item) => Some (owner item)
              | Resolved None => None
              | Rejected _ => None
              end).
Proof.
  intros q. unfold Typed.queryNftOwner, try_catch.
  unfold mbind, Script_bind. fold q. rewrite await_run.
  destruct (snd (respond L (world st) client q)) as [[item |] | e];
    reflexivity.
Qed.

Lemma Untyped_queryCollectionCount_run (L : Ledger Bytes) (client : Client)
    (st : State Bytes L) :
  Untyped.queryCollectionCount L client st
  = (after_request st client Nfts_Collection_getEntries,
     Returned match snd (respond L (world st) client
                           Nfts_Collection_getEntries) with
              | Resolved collections => Z.of_nat (length collections)
              | Rejected _ => 0
              end).
Proof.
  unfold Untyped.queryCollectionCount, try_catch.
  unfold mbind, Script_bind. rewrite await_run.
  destruct (snd (respond L (world st) client Nfts_Collection_getEntries))
    as [collections | e]; reflexivity.
Qed.


(** C4, as the code has it: [transferNftToSibling] looks at no owner.  On
    every ledger and in every state it sends exactly one request, the
    submission of the reserve transfer, and completes with the ledger's
    answer: the receipt, or the rejection thrown on. *)
Theorem transferNftToSibling_submits_unconditionally (L : Ledger Bytes)
    (ss58Encode : Bytes -> Z -> string) (client : Client) (signer : Signer)
    (collectionId itemId destParachainId : Z) (recipientPublicKey : Bytes)
    (st : State Bytes L) :
  let q := signAndSubmit
             (PolkadotXcm_limited_reserve_transfer_assets
                {| dest := Untyped.buildDestination destParachainId
                             recipientPublicKey;
                   beneficiary := Untyped.buildBeneficiary recipientPublicKey;
                   assets := Untyped.buildNftAsset collectionId itemId;
                   fee_asset_item := 0;
                   weight_limit := Unlimited |})
             signer in
  let run := Untyped.transferNftToSibling L ss58Encode client signer
               collectionId itemId destParachainId recipientPublicKey st in
  sent (fst run) = sent st ++ [Send client q] /\
  world (fst run) = fst (respond L (world st) client q) /\
  snd run = match snd (respond L (world st) client q) with
            | Resolved r => Returned r
            | Rejected e => Threw e
            end.
Proof.
  intros q run.
  destruct (Untyped_transferNftToSibling_run L ss58Encode client signer
              collectionId itemId destParachainId recipientPublicKey st)
    as (before & after & Hrun).
  fold q in Hrun. unfold run. rewrite Hrun. simpl. auto.
Qed.

(** C4 fails as stated: item 1 of collection 0 is held by the sovereign
    account (a transfer is in flight), and submitting it again performs the
    remote submission and returns its receipt. *)
Lemma transferNftToSibling_resubmits_in_flight :
  let run := Untyped.transferNftToSibling Memory.ledger Memory.ss58 clientA
               Memory.alice 0 1 1001 (publicKey Memory.bob)
               (Memory.start Memory.in_flight) in
  Memory.owner_on Memory.in_flight clientA 0 1 = Some Memory.sovereign_1001 /\
  length (submissions (fst run)) = 1%nat /\
  snd run = Returned Memory.receipt.
Proof. vm_compute. auto. Qed.

(** ** The chain state queries *)

(** C6, as the code has it: [queryNftOwner] (both variants) returns the
    owner when the query resolves to an item and [null] when it resolves to
    no item; when the query is rejected it returns [null] as well: the
    [catch] block discards the error, the function never throws, and the
    caller cannot tell a failed query from an absent item. *)
Theorem queryNftOwner_null_for_absent_and_failed (L : Ledger Bytes)
    (ss58Encode : Bytes -> Z -> string) (T : Ledger string) (client : Client)
    (collectionId itemId : Z) (st : State Bytes L) (st' : State string T) :
  snd (Untyped.queryNftOwner L ss58Encode client collectionId itemId st)
  = Returned
      match snd (respond L (world st) client
                   (Nfts_Item_getValue collectionId itemId)) with
      | Resolved (Some item) =>
          Some (ss58Encode (owner item) Untyped.SS58_PREFIX)
      | Resolved None => None
      | Rejected _ => None
      end /\
  snd (Typed.queryNftOwner T client collectionId itemId st')
  = Returned
      match snd (respond T (world st') client
                   (Nfts_Item_getValue collectionId itemId)) with
      | Resolved (Some item) => Some (owner item)
      | Resolved None => None
      | Rejected _ => None
      end.
Proof.
  rewrite Untyped_queryNftOwner_run, Typed_queryNftOwner_run. split; reflexivity.
Qed.

(** C6 fails as stated: item 1 of collection 0 exists and is Alice's, the
    query for it fails on a lost connection, and [queryNftOwner] answers
    [null], the very answer it gives for item 2, which does not exist. *)
Lemma queryNftOwner_conflates_failure_with_absence :
  Memory.owner_on (Memory.faulty ConnectionError) clientA 0 1
  = Some (publicKey Memory.alice) /\
  snd (Untyped.queryNftOwner Memory.ledger Memory.ss58 clientA 0 1
         (Memory.start (Memory.faulty ConnectionError)))
  = Returned None /\
  Memory.owner_on Memory.minted clientA 0 2 = None /\
  snd (Untyped.queryNftOwner Memory.ledger Memory.ss58 clientA 0 2
         (Memory.start Memory.minted))
  = Returned None.
Proof. vm_compute. auto. Qed.

(** C8, as the code has it: [queryNftOwner] and [queryCollectionCount] send
    their query exactly once, whatever the ledger answers; there is no retry.
    A rejection, transient or not, is not surfaced: it is caught and turned
    into [null], respectively [0]. *)
Theorem observer_queries_sent_once (L : Ledger Bytes)
    (ss58Encode : Bytes -> Z -> string) (client : Client)
    (collectionId itemId : Z) (st : State Bytes L) :
  let owner_run :=
    Untyped.queryNftOwner L ss58Encode client collectionId itemId st in
  let count_run := Untyped.queryCollectionCount L client st in
  sent (fst owner_run)
  = sent st ++ [Send client (Nfts_Item_getValue collectionId itemId)] /\
  sent (fst count_run)
  = sent st ++ [Send (Owner := Bytes) client Nfts_Collection_getEntries] /\
  (forall e,
     snd (respond L (world st) client
            (Nfts_Item_getValue collectionId itemId)) = Rejected e ->
     snd owner_run = Returned None) /\
  (forall e,
     snd (respond L (world st) client Nfts_Collection_getEntries)
     = Rejected e ->
     snd count_run = Returned 0).
Proof.
  intros owner_run count_run. unfold owner_run, count_run.
  rewrite Untyped_queryNftOwner_run, Untyped_queryCollectionCount_run.
  simpl. repeat split.
  - intros e ->. reflexivity.
  - intros e ->. reflexivity.
Qed.

(** C8 fails as stated: on a lost connection, a transient failure, each
    query is sent once and not again; on a malformed query, a failure that is
    not transient, nothing reaches the caller but [null] and [0]. *)
Lemma observer_queries_no_retry_no_surfacing :
  transient ConnectionError = true /\
  sent (fst (Untyped.queryNftOwner Memory.ledger Memory.ss58 clientA 0 1
               (Memory.start (Memory.faulty ConnectionError))))
  = [Send clientA (Nfts_Item_getValue 0 1)] /\
  sent (fst (Untyped.queryCollectionCount Memory.ledger clientA
               (Memory.start (Memory.faulty ConnectionError))))
  = [Send (Owner := Bytes) clientA Nfts_Collection_getEntries] /\
  transient MalformedQuery = false /\
  snd (Untyped.queryNftOwner Memory.ledger Memory.ss58 clientA 0 1
         (Memory.start (Memory.faulty MalformedQuery)))
  = Returned None /\
  snd (Untyped.queryCollectionCount Memory.ledger clientA
         (Memory.start (Memory.faulty MalformedQuery)))
  = Returned 0.
Proof. vm_compute. repeat split. Qed.

(** ** The two variants of the transfer script *)

Lemma buildNftAsset_variants_agree (collectionId itemId : Z) :
  Untyped.buildNftAsset collectionId itemId
  = Typed.buildNftAsset collectionId itemId.
Proof. reflexivity. Qed.

Lemma buildBeneficiary_variants_agree (recipientPublicKey : Bytes) :
  Untyped.buildBeneficiary recipientPublicKey
  = Typed.buildBeneficiary recipientPublicKey.
Proof. reflexivity. Qed.

(** C10: the two variants do not build the same destination.  For parachain
    1001 the typed variant gives [(1, [Parachain(1001)])], the variant on the
    unsafe API appends the recipient's [AccountId32] junction; for no
    parachain id and no key are the two destinations equal. *)
Theorem buildDestination_variants_differ :
  Untyped.buildDestination 1001 (publicKey Memory.bob)
  = V4 {| parents := 1;
          interior := [ Parachain 1001;
                        AccountId32 None (publicKey Memory.bob) ] |} /\
  Typed.buildDestination 1001
  = V4 {| parents := 1; interior := [ Parachain 1001 ] |} /\
  forall parachainId recipientPublicKey,
    Untyped.buildDestination parachainId recipientPublicKey
    <> Typed.buildDestination parachainId.
Proof.
  split; [reflexivity |]. split; [reflexivity |].
  intros parachainId recipientPublicKey H. discriminate H.
Qed.

(** ** The reserve registry *)

Section RegistryFacts.

Import Registry.

Lemma find_snoc {A : Type} (f : A -> bool) (l : list A) (x : A) :
  find f (l ++ [x])
  = match find f l with
    | Some y => Some y
    | None => if f x then Some x else None
    end.
Proof.
  induction l as [| y l IH]; simpl.
  - reflexivity.
  - destruct (f y); [reflexivity | exact IH].
Qed.

Lemma resolve_snoc (reg : ReserveRegistry) (e : ReserveRegistryEntry)
    (loc : Location) :
  resolve (reg ++ [e]) loc
  = match resolve reg loc with
    | Some collection => Some collection
    | None => if decide (foreignLocation e = loc)
              then Some (localCollectionId e) else None
    end.
Proof.
  unfold resolve. rewrite find_snoc.
  destruct (find _ reg); simpl; [reflexivity |].
  case_bool_decide; case_decide; first [reflexivity | contradiction].
Qed.

(** A collection some location resolves to has a reverse entry. *)
Lemma resolve_resolveReverse (reg : ReserveRegistry) (loc : Location)
    (collection : Z) :
  resolve reg loc = Some collection ->
  is_Some (resolveReverse reg collection).
Proof.
  unfold resolve, resolveReverse. intros H.
  destruct (find (fun e => bool_decide (foreignLocation e = loc)) reg)
    as [e |] eqn:Hfind; [| discriminate].
  injection H as Hc. apply find_some in Hfind as [Hin _].
  destruct (find (fun e0 => bool_decide (localCollectionId e0 = collection)) reg)
    as [e' |] eqn:Hrev; [eexists; reflexivity |].
  exfalso. pose proof (find_none _ _ Hrev e Hin) as Hno. simpl in Hno.
  apply bool_decide_eq_false in Hno. contradiction.
Qed.

Lemma register_Ok (reg reg' : ReserveRegistry) (loc : Location)
    (collection : Z) :
  register reg loc collection = Ok reg' ->
  resolve reg loc = None /\
  resolveReverse reg collection = None /\
  reg' = reg ++ [ {| foreignLocation := loc;
                     localCollectionId := collection |} ].
Proof.
  unfold register. intros H.
  destruct (resolve reg loc); [discriminate |].
  destruct (resolveReverse reg collection); [discriminate |].
  injection H as <-. auto.
Qed.

Lemma register_injective (reg reg' : ReserveRegistry) (loc : Location)
    (collection : Z) :
  injective reg ->
  register reg loc collection = Ok reg' ->
  injective reg'.
Proof.
  intros Hinj Hreg. apply register_Ok in Hreg as (Hloc & Hrev & ->).
  intros l1 l2 c. rewrite !resolve_snoc. simpl.
  destruct (resolve reg l1) as [c1 |] eqn:H1;
    destruct (resolve reg l2) as [c2 |] eqn:H2.
  - intros [= ->] [= ->]. exact (Hinj l1 l2 c H1 H2).
  - intros [= ->]. case_decide; [| discriminate]. intros [= ->].
    apply resolve_resolveReverse in H1 as [l Hl]. congruence.
  - case_decide; [| discriminate]. intros [= <-] [= ->].
    apply resolve_resolveReverse in H2 as [l Hl]. congruence.
  - repeat case_decide; try discriminate. congruence.
Qed.

Lemma reachable_injective (reg : ReserveRegistry) :
  reachable reg -> injective reg.
Proof.
  induction 1 as [| reg loc collection reg' _ IH Hreg].
  - intros l1 l2 c H. discriminate H.
  - exact (register_injective reg reg' loc collection IH Hreg).
Qed.

(** An entry once written is resolved the same way ever after. *)
Lemma register_keeps (reg reg' : ReserveRegistry) (loc loc0 : Location)
    (collection c0 : Z) :
  register reg loc collection = Ok reg' ->
  resolve reg loc0 = Some c0 ->
  resolve reg' loc0 = Some c0.
Proof.
  intros Hreg H0. apply register_Ok in Hreg as (_ & _ & ->).
  rewrite resolve_snoc, H0. reflexivity.
Qed.

(** C9 (registry injectivity): in a registry built by [register] from the
    empty one, no two locations resolve to one collection.  [register] fails
    with [AlreadyMapped] when the location has an entry, and with
    [CollectionInUse] when the location has none and the collection is some
    location's target; when it succeeds it appends one entry, leaves every
    earlier entry in place and keeps the registry injective.  Of two calls
    with different locations and one collection, the first succeeding, the
    second fails, with [CollectionInUse] unless its location had an entry. *)
Theorem register_injective_append_only (reg : ReserveRegistry)
    (loc : Location) (collection : Z) :
  reachable reg ->
  injective reg /\
  (is_Some (resolve reg loc) -> register reg loc collection = Err AlreadyMapped) /\
  (resolve reg loc = None -> is_Some (resolveReverse reg collection) ->
   register reg loc collection = Err CollectionInUse) /\
  (forall reg',
     register reg loc collection = Ok reg' ->
     reg' = reg ++ [ {| foreignLocation := loc;
                        localCollectionId := collection |} ] /\
     injective reg' /\
     (forall loc0 c0, resolve reg loc0 = Some c0 -> resolve reg' loc0 = Some c0) /\
     (forall loc2,
        loc2 <> loc ->
        (exists err, register reg' loc2 collection = Err err) /\
        (resolve reg loc2 = None ->
         register reg' loc2 collection = Err CollectionInUse))).
Proof.
  intros Hreach. pose proof (reachable_injective reg Hreach) as Hinj.
  split; [exact Hinj |]. split; [| split].
  - intros [c Hc]. unfold register. rewrite Hc. reflexivity.
  - intros Hnone [l Hl]. unfold register. rewrite Hnone, Hl. reflexivity.
  - intros reg' Hreg. pose proof (register_Ok _ _ _ _ Hreg) as (Hloc & Hrev & ->).
    split; [reflexivity |].
    split; [exact (register_injective _ _ _ _ Hinj Hreg) |].
    split; [intros loc0 c0; exact (register_keeps _ _ _ _ _ _ Hreg) |].
    intros loc2 Hne.
    assert (Hin : is_Some (resolveReverse
                             (reg ++ [ {| foreignLocation := loc;
                                          localCollectionId := collection |} ])
                             collection)).
    { apply (resolve_resolveReverse _ loc). rewrite resolve_snoc, Hloc. simpl.
      case_decide; [reflexivity | contradiction]. }
    destruct Hin as [l Hl].
    split.
    + unfold register.
      destruct (resolve _ loc2); [eexists; reflexivity |].
      rewrite Hl. eexists; reflexivity.
    + intros Hloc2. unfold register. rewrite resolve_snoc, Hloc2. simpl.
      case_decide; [congruence |]. rewrite Hl. reflexivity.
Qed.

Lemma register_injective_append_only_witness :
  let parachain_a := {| parents := 1; interior := [ Parachain 1000 ] |} in
  let parachain_c := {| parents := 1; interior := [ Parachain 1002 ] |} in
  let reg' := [ {| foreignLocation := parachain_a; localCollectionId := 7 |} ] in
  register [] parachain_a 7 = Ok reg' /\
  injective reg' /\
  register reg' parachain_c 7 = Err CollectionInUse.
Proof.
  intros parachain_a parachain_c reg'.
  destruct (register_injective_append_only [] parachain_a 7 reachable_empty)
    as (_ & _ & _ & Hok).
  destruct (Hok reg' eq_refl) as (_ & Hinj & _ & Htwo).
  split; [reflexivity |]. split; [exact Hinj |].
  destruct (Htwo parachain_c) as [_ Hin_use]; [discriminate |].
  apply Hin_use. reflexivity.
Defined.

End RegistryFacts.

(** ** The transfer state machine *)

Section OrchestratorFacts.

Import Orchestrator.

Lemma poll_terminal (o : Observation) (h : Handle) :
  terminal (status h) = true -> poll o h = (h, []).
Proof.
  unfold poll. destruct (status h); simpl; intros Ht;
    first [discriminate Ht | reflexivity].
Qed.

Lemma polls_terminal (os : list Observation) (h : Handle) :
  terminal (status h) = true -> polls os h = (h, []).
Proof.
  intros Ht. induction os as [| o os IH]; simpl.
  - reflexivity.
  - rewrite (poll_terminal o h Ht), IH. reflexivity.
Qed.

(** Past the deadline with nothing observed on the destination, a transfer
    that awaits its effect fails with [TimedOut], and stays so. *)
Lemma polls_timeout (o : Observation) (os : list Observation) (h : Handle) :
  status h = AwaitingInclusion ->
  derivative_observed o = false ->
  deadline (request h) < now o ->
  polls (o :: os) h
  = (with_status h (Failed TimedOut),
     [QueryDestination (collectionId (request h)) (itemId (request h))]).
Proof.
  intros Hs Hobs Hlate. simpl. unfold poll. rewrite Hs, Hobs.
  destruct (Z.ltb_spec (deadline (request h)) (now o)) as [_ | Hge]; [| lia].
  rewrite polls_terminal by reflexivity. reflexivity.
Qed.

(** C7 (terminal states are final): once the status is [Settled] or
    [Failed(_)], a call of [poll] returns the handle as it is, with the same
    status, and performs no query, under every observation; so does every
    sequence of calls.  In particular [Failed(TimedOut)] stays
    [Failed(TimedOut)]. *)
Theorem poll_terminal_idempotent (h : Handle) (o : Observation)
    (os : list Observation) :
  terminal (status h) = true ->
  poll o h = (h, []) /\
  polls os h = (h, []) /\
  status (fst (polls os h)) = status h /\
  (status h = Failed TimedOut ->
   status (fst (poll o h)) = Failed TimedOut).
Proof.
  intros Ht.
  rewrite (poll_terminal o h Ht), (polls_terminal os h Ht).
  simpl. auto.
Qed.

Lemma poll_terminal_idempotent_witness :
  let h := {| request := {| collectionId := 0;
                            itemId := 1;
                            sourceAccount := publicKey Memory.alice;
                            destinationChainId := 1001;
                            destinationAccount := publicKey Memory.bob;
                            deadline := 100 |};
              status := Failed TimedOut |} in
  let late := {| now := 200; included := true; rejected := false;
                 derivative_observed := true |} in
  poll late h = (h, []) /\
  polls [late; late] h = (h, []) /\
  status (fst (polls [late; late] h)) = status h /\
  (status h = Failed TimedOut ->
   status (fst (poll late h)) = Failed TimedOut).
Proof.
  intros h late. apply (poll_terminal_idempotent h late [late; late]).
  reflexivity.
Defined.

End OrchestratorFacts.

(** * Further properties of the code *)

(** ** The matcher and the reserve filter together *)

Lemma matches_nonfungibles_Ok_shape (a : Asset) (c i : Z) :
  matches_nonfungibles a = Ok (c, i) ->
  0 <= c < 2 ^ 32 /\
  0 <= i < 2 ^ 32 /\
  exists collection item,
    a = {| id := {| parents := 0;
                    interior := [ PalletInstance 51;
                                  GeneralIndex collection ] |};
           fun_ := NonFungible (Index item) |} /\
    c = collection mod 2 ^ 32 /\
    i = item mod 2 ^ 32.
Proof.
  intros Hm.
  destruct (matches_nonfungibles_inv a) as [[collection Hid] [item Hfun]];
    [rewrite Hm; discriminate |].
  destruct a as [l f]. simpl in Hid, Hfun. subst l f.
  rewrite matches_nonfungibles_shape in Hm. injection Hm as <- <-.
  split; [apply as_u32_range |]. split; [apply as_u32_range |].
  exists collection, item. auto.
Qed.

(** Whatever pair the matcher answers is a pair of [u32] values, and the
    asset it was given has the NFT shape, with ids congruent to the pair
    modulo [2^32]. *)
Theorem matches_nonfungibles_Ok_inv (a : Asset) (c i : Z) :
  matches_nonfungibles a = Ok (c, i) ->
  0 <= c < 2 ^ 32 /\
  0 <= i < 2 ^ 32 /\
  exists collection item,
    a = {| id := {| parents := 0;
                    interior := [ PalletInstance 51;
                                  GeneralIndex collection ] |};
           fun_ := NonFungible (Index item) |} /\
    c = collection mod 2 ^ 32 /\
    i = item mod 2 ^ 32.
Proof. exact (matches_nonfungibles_Ok_shape a c i). Qed.

Lemma matches_nonfungibles_Ok_inv_witness :
  0 <= 5 < 2 ^ 32 /\
  0 <= 9 < 2 ^ 32 /\
  exists collection item,
    {| id := {| parents := 0;
                interior := [ PalletInstance 51;
                              GeneralIndex (2 ^ 32 + 5) ] |};
       fun_ := NonFungible (Index 9) |}
    = {| id := {| parents := 0;
                  interior := [ PalletInstance 51;
                                GeneralIndex collection ] |};
         fun_ := NonFungible (Index item) |} /\
    5 = collection mod 2 ^ 32 /\
    9 = item mod 2 ^ 32.
Proof.
  apply (matches_nonfungibles_Ok_inv
           {| id := {| parents := 0;
                       interior := [ PalletInstance 51;
                                     GeneralIndex (2 ^ 32 + 5) ] |};
              fun_ := NonFungible (Index 9) |} 5 9).
  reflexivity.
Defined.

(** The round trip the other way: an asset the matcher resolves to [(c, i)],
    and whose [GeneralIndex] and [Index] are themselves below [2^32], is the
    very asset [buildNftAsset(c, i)] builds. *)
Theorem buildNftAsset_of_matched (a : Asset) (c i : Z) :
  matches_nonfungibles a = Ok (c, i) ->
  (forall collection, In (GeneralIndex collection) (interior (id a)) ->
                      0 <= collection < 2 ^ 32) ->
  (forall item, fun_ a = NonFungible (Index item) -> 0 <= item < 2 ^ 32) ->
  Untyped.buildNftAsset c i = V4 [a] /\ Typed.buildNftAsset c i = V4 [a].
Proof.
  intros Hm Hcol Hitem.
  destruct (matches_nonfungibles_Ok_shape a c i Hm)
    as (_ & _ & collection & item & -> & -> & ->).
  simpl in Hcol, Hitem.
  rewrite (Z.mod_small collection), (Z.mod_small item);
    [split; reflexivity | apply Hitem; reflexivity | apply Hcol; auto].
Qed.

Lemma buildNftAsset_of_matched_witness :
  Untyped.buildNftAsset 3 4
  = V4 [ {| id := {| parents := 0;
                     interior := [ PalletInstance 51; GeneralIndex 3 ] |};
            fun_ := NonFungible (Index 4) |} ] /\
  Typed.buildNftAsset 3 4
  = V4 [ {| id := {| parents := 0;
                     interior := [ PalletInstance 51; GeneralIndex 3 ] |};
            fun_ := NonFungible (Index 4) |} ].
Proof.
  apply buildNftAsset_of_matched.
  - reflexivity.
  - simpl. intros collection [H | [H | []]]; [discriminate H |].
    injection H as <-. lia.
  - simpl. intros item H. injection H as <-. lia.
Defined.

(** The reserve filter is coarser than the matcher: every asset the matcher
    resolves is accepted from every sibling parachain, and from every
    sibling parachain the filter also accepts assets the matcher does not
    handle. *)
Theorem contains_of_matched (a : Asset) (c i X : Z) :
  matches_nonfungibles a = Ok (c, i) ->
  contains a {| parents := 1; interior := [ Parachain X ] |} = true /\
  exists a',
    contains a' {| parents := 1; interior := [ Parachain X ] |} = true /\
    matches_nonfungibles a' = Err AssetNotHandled.
Proof.
  intros Hm.
  destruct (matches_nonfungibles_Ok_shape a c i Hm)
    as (_ & _ & collection & item & -> & _).
  split; [reflexivity |].
  exists {| id := {| parents := 1; interior := [] |};
            fun_ := NonFungible Undefined |}.
  split; reflexivity.
Qed.

Lemma contains_of_matched_witness :
  contains {| id := {| parents := 0;
                       interior := [ PalletInstance 51; GeneralIndex 0 ] |};
              fun_ := NonFungible (Index 1) |}
    {| parents := 1; interior := [ Parachain 1000 ] |} = true /\
  exists a',
    contains a' {| parents := 1; interior := [ Parachain 1000 ] |} = true /\
    matches_nonfungibles a' = Err AssetNotHandled.
Proof.
  apply (contains_of_matched _ 0 1 1000). reflexivity.
Defined.

(** The asset of a transfer message passes the reserve filter when the
    origin is the location the typed [buildDestination] gives a parachain; it
    does not with the location of the other [buildDestination], which has a
    second junction, nor with a beneficiary location. *)
Theorem built_asset_and_reserve_filter (collectionId itemId parachainId : Z)
    (recipientPublicKey : Bytes) :
  exists a sibling account_at_sibling account,
    Typed.buildNftAsset collectionId itemId = V4 [a] /\
    Untyped.buildNftAsset collectionId itemId = V4 [a] /\
    Typed.buildDestination parachainId = V4 sibling /\
    Untyped.buildDestination parachainId recipientPublicKey
    = V4 account_at_sibling /\
    Typed.buildBeneficiary recipientPublicKey = V4 account /\
    contains a sibling = true /\
    contains a account_at_sibling = false /\
    contains a account = false.
Proof.
  do 4 eexists. repeat split.
Qed.

(** ** [transferNftToSibling], line by line *)

Section TransferRuns.

Import Transcript.

Lemma Untyped_log_event_run (L : Ledger Bytes) (event : TxEvent)
    (st : State Bytes L) :
  Untyped.log_event L event st
  = (after_logs st (event_lines event), Returned tt).
Proof.
  unfold Untyped.log_event, event_lines, mbind, Script_bind, mret, Script_ret,
    console_log, after_logs.
  destruct st as [w s c].
  destruct (String.eqb (type event) "PolkadotXcm");
    destruct (String.eqb (value_type event) "Sent");
    destruct (String.eqb (type event) "XcmpQueue");
    simpl; rewrite <- ?app_assoc, ?app_nil_r; reflexivity.
Qed.

Lemma Untyped_log_events_run (L : Ledger Bytes) (evs : list TxEvent)
    (st : State Bytes L) :
  for_of evs (Untyped.log_event L) st
  = (after_logs st (concat (map event_lines evs)), Returned tt).
Proof.
  revert st. induction evs as [| ev evs IH]; intros st; simpl.
  - rewrite after_logs_nil. reflexivity.
  - unfold mbind, Script_bind.
    rewrite Untyped_log_event_run, IH, after_logs_app. reflexivity.
Qed.

Lemma Untyped_transferNftToSibling_exact (L : Ledger Bytes)
    (ss58Encode : Bytes -> Z -> string) (client : Client) (signer : Signer)
    (collectionId itemId destParachainId : Z) (recipientPublicKey : Bytes)
    (st : State Bytes L) :
  let q := signAndSubmit
             (PolkadotXcm_limited_reserve_transfer_assets
                {| dest := Untyped.buildDestination destParachainId
                             recipientPublicKey;
                   beneficiary := Untyped.buildBeneficiary recipientPublicKey;
                   assets := Untyped.buildNftAsset collectionId itemId;
                   fee_asset_item := 0;
                   weight_limit := Unlimited |})
             signer in
  let announced :=
    after_logs st (announcement ss58Encode collectionId itemId
                     destParachainId recipientPublicKey) in
  Untyped.transferNftToSibling L ss58Encode client signer collectionId itemId
    destParachainId recipientPublicKey st
  = match snd (respond L (world st) client q) with
    | Resolved r =>
        (after_logs (after_request announced client q) (report r), Returned r)
    | Rejected e => (after_request announced client q, Threw e)
    end.
Proof.
  intros q announced. unfold Untyped.transferNftToSibling.
  unfold mbind, Script_bind. rewrite !console_log_run, !after_logs_app.
  fold q. rewrite await_run. simpl world.
  change (after_logs st _) with announced.
  destruct (snd (respond L (world st) client q)) as [r | e]; [| reflexivity].
  rewrite console_log_run, Untyped_log_events_run, after_logs_app.
  reflexivity.
Qed.

Lemma event_lines_sent (event : TxEvent) :
  In "  XCM message sent successfully!" (event_lines event)
  <-> is_Sent event = true.
Proof.
  unfold event_lines, is_Sent.
  destruct (String.eqb (type event) "PolkadotXcm");
    destruct (String.eqb (value_type event) "Sent");
    destruct (String.eqb (type event) "XcmpQueue");
    simpl; split; intros H; try discriminate H; auto;
    repeat (destruct H as [H | H]; try discriminate H); try contradiction.
Qed.

End TransferRuns.



(** When the submission resolves, [transferNftToSibling] writes the line
    ["  XCM message sent successfully!"] exactly when the receipt has a
    [PolkadotXcm.Sent] event; the receipt is returned either way. *)
Theorem transferNftToSibling_reports_Sent (L : Ledger Bytes)
    (ss58Encode : Bytes -> Z -> string) (client : Client) (signer : Signer)
    (collectionId itemId destParachainId : Z) (recipientPublicKey : Bytes)
    (st : State Bytes L) (r : TxResult) :
  let q := signAndSubmit
             (PolkadotXcm_limited_reserve_transfer_assets
                {| dest := Untyped.buildDestination destParachainId
                             recipientPublicKey;
                   beneficiary := Untyped.buildBeneficiary recipientPublicKey;
                   assets := Untyped.buildNftAsset collectionId itemId;
                   fee_asset_item := 0;
                   weight_limit := Unlimited |})
             signer in
  let run := Untyped.transferNftToSibling L ss58Encode client signer
               collectionId itemId destParachainId recipientPublicKey st in
  snd (respond L (world st) client q) = Resolved r ->
  snd run = Returned r /\
  exists lines,
    console (fst run) = console st ++ lines /\
    (In "  XCM message sent successfully!" lines
     <-> existsb Transcript.is_Sent (events r) = true).
Proof.
  intros q run Hr. unfold run.
  rewrite Untyped_transferNftToSibling_exact. fold q. rewrite Hr.
  split; [reflexivity |].
  exists (Transcript.announcement ss58Encode collectionId itemId
            destParachainId recipientPublicKey ++ Transcript.report r).
  split; [simpl; rewrite <- app_assoc; reflexivity |].
  rewrite existsb_exists, in_app_iff. unfold Transcript.report.
  split.
  - intros [Hin | [Hin | Hin]].
    + simpl in Hin.
      repeat (destruct Hin as [Hin | Hin]; try discriminate Hin).
      contradiction.
    + discriminate Hin.
    + apply in_concat in Hin as (lines & Hlines & Hin).
      apply in_map_iff in Hlines as (ev & <- & Hev).
      exists ev. split; [exact Hev | apply event_lines_sent; exact Hin].
  - intros (ev & Hev & Hsent). right. right.
    apply in_concat. exists (Transcript.event_lines ev).
    split; [apply in_map; exact Hev | apply event_lines_sent; exact Hsent].
Qed.

Lemma transferNftToSibling_reports_Sent_witness :
  let run := Untyped.transferNftToSibling Memory.ledger Memory.ss58 clientA
               Memory.alice 0 1 1001 (publicKey Memory.bob)
               (Memory.start Memory.minted) in
  snd run = Returned Memory.receipt /\
  exists lines,
    console (fst run) = console (Memory.start Memory.minted) ++ lines /\
    (In "  XCM message sent successfully!" lines
     <-> existsb Transcript.is_Sent (events Memory.receipt) = true).
Proof.
  apply (transferNftToSibling_reports_Sent Memory.ledger Memory.ss58 clientA
           Memory.alice 0 1 1001 (publicKey Memory.bob)
           (Memory.start Memory.minted) Memory.receipt).
  reflexivity.
Defined.

(** ** The typed variant of the transfer script *)

Lemma Typed_log_event_only_logs (T : Ledger string) (event : TxEvent) :
  only_logs (Typed.log_event T event).
Proof.
  unfold Typed.log_event.
  apply only_logs_bind.
  - destruct (String.eqb (type event) "PolkadotXcm"); auto with scripts.
    apply only_logs_bind; auto with scripts.
    destruct (String.eqb (value_type event) "Sent"); auto with scripts.
  - destruct (String.eqb (type event) "XcmpQueue"); auto with scripts.
Qed.

Lemma Typed_transferNftToSibling_run (T : Ledger string)
    (client : Client) (signer : Signer)
    (collectionId itemId destParachainId : Z) (recipientPublicKey : Bytes)
    (st : State string T) :
  let q := signAndSubmit
             (PolkadotXcm_limited_reserve_transfer_assets
                {| dest := Typed.buildDestination destParachainId;
                   beneficiary := Typed.buildBeneficiary recipientPublicKey;
                   assets := Typed.buildNftAsset collectionId itemId;
                   fee_asset_item := 0;
                   weight_limit := Unlimited |})
             signer in
  exists before after,
    Typed.transferNftToSibling T client signer collectionId itemId
      destParachainId recipientPublicKey st
    = (after_logs (after_request (after_logs st before) client q) after,
       match snd (respond T (world st) client q) with
       | Resolved r => Returned r
       | Rejected e => Threw e
       end).
Proof.
  intros q. unfold Typed.transferNftToSibling.
  unfold mbind, Script_bind. rewrite !console_log_run, !after_logs_app.
  fold q. rewrite await_run. simpl world.
  eexists.
  destruct (snd (respond T (world st) client q)) as [r | e].
  - rewrite console_log_run.
    match goal with
    | |- context [for_of (events r) _ ?s] =>
        destruct (for_of_only_logs T (Typed.log_event T) (events r)
                    (Typed_log_event_only_logs T) s) as [lines ->]
    end.
    rewrite after_logs_app. eexists. reflexivity.
  - exists []. rewrite after_logs_nil. reflexivity.
Qed.

(** The typed [transferNftToSibling] sends exactly one request, whatever the
    state of the ledger: the reserve transfer of the one asset to
    [(1, [Parachain(dest)])], fees paid with asset 0 and no weight limit.  It
    returns the receipt of the ledger or throws its rejection; the ledger is
    changed by that request only. *)
Theorem Typed_transferNftToSibling_submits_once (T : Ledger string)
    (client : Client) (signer : Signer)
    (collectionId itemId destParachainId : Z) (recipientPublicKey : Bytes)
    (st : State string T) :
  let q := signAndSubmit
             (PolkadotXcm_limited_reserve_transfer_assets
                {| dest := V4 {| parents := 1;
                                 interior := [ Parachain destParachainId ] |};
                   beneficiary :=
                     V4 {| parents := 0;
                           interior := [ AccountId32 None
                                           recipientPublicKey ] |};
                   assets :=
                     V4 [ {| id := {| parents := 0;
                                      interior := [ PalletInstance 51;
                                                    GeneralIndex collectionId ] |};
                             fun_ := NonFungible (Index itemId) |} ];
                   fee_asset_item := 0;
                   weight_limit := Unlimited |})
             signer in
  let run := Typed.transferNftToSibling T client signer collectionId itemId
               destParachainId recipientPublicKey st in
  sent (fst run) = sent st ++ [Send client q] /\
  world (fst run) = fst (respond T (world st) client q) /\
  snd run = match snd (respond T (world st) client q) with
            | Resolved r => Returned r
            | Rejected e => Threw e
            end.
Proof.
  intros q run.
  destruct (Typed_transferNftToSibling_run T client signer collectionId itemId
              destParachainId recipientPublicKey st)
    as (before & after & Hrun).
  unfold run. rewrite Hrun. simpl. auto.
Qed.


(** ** [main] of the transfer script *)

Section MainRuns.

Import UntypedMain.

Context (L : Ledger Bytes) (ss58Encode : Bytes -> Z -> string)
  (derive : string -> Bytes) (createClient : string -> Client)
  (message stack : JsError -> string).

Ltac run_scripts :=
  repeat (first [ rewrite console_log_run
                | rewrite Untyped_queryNftOwner_run
                | rewrite Untyped_transferNftToSibling_exact
                | rewrite Untyped_queryCollectionCount_run ];
          cbn beta iota zeta;
          cbn [world sent console after_logs after_request]).

(** Whenever the ledger accepts the submission, [main] runs to its end: it
    sends the owner query, the submission, the owner query again and the
    collection query of the destination chain, in this order and nothing
    else, writes ["Transfer Complete!"], destroys both clients and does not
    call [process.exit].  What the three queries answer, or whether they
    fail, makes no difference. *)
Theorem main_completes_when_submitted (st : State Bytes L) (r : TxResult) :
  let cA := createClient PARACHAIN_A_WS in
  let cB := createClient PARACHAIN_B_WS in
  let alice := createSigner ss58Encode derive "//Alice" in
  let bob := createSigner ss58Encode derive "//Bob" in
  let q1 := Nfts_Item_getValue (Owner := Bytes) 0 1 in
  let q2 := signAndSubmit
              (PolkadotXcm_limited_reserve_transfer_assets
                 {| dest := Untyped.buildDestination Untyped.PARACHAIN_B_ID
                              (publicKey bob);
                    beneficiary := Untyped.buildBeneficiary (publicKey bob);
                    assets := Untyped.buildNftAsset 0 1;
                    fee_asset_item := 0;
                    weight_limit := Unlimited |})
              alice in
  let out := main L ss58Encode derive createClient message stack st in
  snd (respond L (fst (respond L (world st) cA q1)) cA q2) = Resolved r ->
  sent (final L out)
  = sent st ++ [ Send cA q1; Send cA q2; Send cA q1;
                 Send cB Nfts_Collection_getEntries ] /\
  In "Transfer Complete!" (console (final L out)) /\
  stderr L out = [] /\
  destroyed L out = [cA; cB] /\
  exit_code L out = None.
Proof.
  intros cA cB alice bob q1 q2 out Hr. unfold out, main, main_try.
  unfold connectToParachain, sleep.
  unfold mbind, Script_bind, mret, Script_ret.
  fold cA cB alice bob.
  run_scripts. fold q1 q2. rewrite Hr. run_scripts.
  match goal with |- context [truthy ?x] => destruct (truthy x) end;
    run_scripts; cbn [final stderr destroyed exit_code sent console after_logs
         after_request];
    rewrite <- ?app_assoc.
  all: split; [reflexivity |].
  all: split; [| auto].
  all: rewrite !in_app_iff; cbn [In]; tauto.
Qed.

(** When the ledger rejects the submission, [main] stops there: it has sent
    the owner query and the submission and sends nothing more, it never
    writes ["Transfer Complete!"], it reports the error on the error stream
    and ends the process with code 1, before the [finally] block could
    destroy the clients. *)
Theorem main_exits_when_rejected (st : State Bytes L) (e : JsError) :
  let cA := createClient PARACHAIN_A_WS in
  let alice := createSigner ss58Encode derive "//Alice" in
  let bob := createSigner ss58Encode derive "//Bob" in
  let q1 := Nfts_Item_getValue (Owner := Bytes) 0 1 in
  let q2 := signAndSubmit
              (PolkadotXcm_limited_reserve_transfer_assets
                 {| dest := Untyped.buildDestination Untyped.PARACHAIN_B_ID
                              (publicKey bob);
                    beneficiary := Untyped.buildBeneficiary (publicKey bob);
                    assets := Untyped.buildNftAsset 0 1;
                    fee_asset_item := 0;
                    weight_limit := Unlimited |})
              alice in
  let out := main L ss58Encode derive createClient message stack st in
  snd (respond L (fst (respond L (world st) cA q1)) cA q2) = Rejected e ->
  sent (final L out) = sent st ++ [ Send cA q1; Send cA q2 ] /\
  (exists lines,
     console (final L out) = console st ++ lines /\
     ~ In "Transfer Complete!" lines) /\
  stderr L out = [ LF +:+ "Error: " +:+ message e; stack e ] /\
  destroyed L out = [] /\
  exit_code L out = Some 1.
Proof.
  intros cA alice bob q1 q2 out He. unfold out, main, main_try.
  unfold connectToParachain, sleep.
  unfold mbind, Script_bind, mret, Script_ret.
  fold cA alice bob.
  run_scripts. fold q1 q2. rewrite He.
  cbn [final stderr destroyed exit_code sent console after_logs
         after_request].
  rewrite <- ?app_assoc.
  split; [reflexivity |]. split; [| auto].
  eexists. split; [reflexivity |].
  unfold Transcript.announcement.
  cbn [In app]. intros Hin.
  repeat (destruct Hin as [Hin | Hin]; [discriminate Hin |]).
  exact Hin.
Qed.

End MainRuns.

Lemma main_completes_when_submitted_witness :
  let out := UntypedMain.main Memory.ledger Memory.ss58 Fixtures.derive
               Fixtures.createClient Fixtures.message Fixtures.stack
               (Memory.start Memory.minted) in
  length (sent (UntypedMain.final _ out)) = 4%nat /\
  UntypedMain.exit_code _ out = None.
Proof.
  intros out.
  destruct (main_completes_when_submitted Memory.ledger Memory.ss58
              Fixtures.derive Fixtures.createClient Fixtures.message
              Fixtures.stack (Memory.start Memory.minted) Memory.receipt)
    as (Hsent & _ & _ & _ & Hcode); [vm_compute; reflexivity |].
  split; [unfold out; rewrite Hsent; reflexivity | exact Hcode].
Defined.

Lemma main_exits_when_rejected_witness :
  let out := UntypedMain.main Memory.ledger Memory.ss58 Fixtures.derive
               Fixtures.createClient Fixtures.message Fixtures.stack
               (Memory.start (Memory.faulty InvalidTransaction)) in
  length (sent (UntypedMain.final _ out)) = 2%nat /\
  UntypedMain.exit_code _ out = Some 1.
Proof.
  intros out.
  destruct (main_exits_when_rejected Memory.ledger Memory.ss58
              Fixtures.derive Fixtures.createClient Fixtures.message
              Fixtures.stack (Memory.start (Memory.faulty InvalidTransaction))
              InvalidTransaction)
    as (Hsent & _ & _ & _ & Hcode); [vm_compute; reflexivity |].
  split; [unfold out; rewrite Hsent; reflexivity | exact Hcode].
Defined.

(** ** The setup script *)

Section SetupRuns.

Import Setup.

Context (L : Setup.Ledger).

Lemma setup_console_log_run (line : string) (st : State L) :
  console_log line st = (after_logs st [line], Returned tt).
Proof. reflexivity. Qed.

Lemma setup_after_logs_nil (st : State L) : after_logs st [] = st.
Proof. unfold after_logs. rewrite app_nil_r. destruct st; reflexivity. Qed.

Lemma setup_after_logs_app (st : State L) (l1 l2 : list string) :
  after_logs (after_logs st l1) l2 = after_logs st (l1 ++ l2).
Proof. unfold after_logs. simpl. rewrite <- app_assoc. reflexivity. Qed.

Lemma setup_await_run {R : Type} (api : Client) (q : Request R)
    (st : State L) :
  await api q st
  = (after_request st api q,
     match snd (respond L (world st) api q) with
     | Resolved r => Returned r
     | Rejected e => Threw e
     end).
Proof.
  unfold await, after_request.
  destruct (respond L (world st) api q) as [w [r | e]]; reflexivity.
Qed.

(** The loop of [createCollection] stops at the first [Nfts.Created] event
    and returns its collection. *)
Lemma created_loop_run (evs : list TxEvent) (st : State L) :
  for_of_return L evs (fun event =>
    if String.eqb (type event) "Nfts"
       && String.eqb (value_type event) "Created" then
      let collectionId := value_collection event in
      _ ← console_log ("Collection created with ID: " +:+ pretty collectionId);
      mret (Some collectionId)
    else mret None) st
  = (after_logs st
       match find is_Created evs with
       | Some event => [ "Collection created with ID: "
                         +:+ pretty (value_collection event) ]
       | None => []
       end,
     Returned (value_collection <$> find is_Created evs)).
Proof.
  revert st. induction evs as [| ev evs IH]; intros st; simpl.
  - rewrite setup_after_logs_nil. reflexivity.
  - unfold mbind, Script_bind.
    change (String.eqb (type ev) "Nfts" && String.eqb (value_type ev) "Created")
      with (is_Created ev).
    destruct (is_Created ev).
    + reflexivity.
    + simpl. rewrite IH. reflexivity.
Qed.

Lemma issued_loop_run (itemId : Z) (evs : list TxEvent) (st : State L) :
  for_of_return L evs (fun event =>
    if String.eqb (type event) "Nfts"
       && String.eqb (value_type event) "Issued" then
      _ ← console_log ("NFT #" +:+ pretty itemId +:+ " issued successfully");
      mret (Some true)
    else mret None) st
  = (after_logs st
       (if existsb is_Issued evs
        then [ "NFT #" +:+ pretty itemId +:+ " issued successfully" ]
        else []),
     Returned (if existsb is_Issued evs then Some true else None)).
Proof.
  revert st. induction evs as [| ev evs IH]; intros st; simpl.
  - rewrite setup_after_logs_nil. reflexivity.
  - unfold mbind, Script_bind.
    change (String.eqb (type ev) "Nfts" && String.eqb (value_type ev) "Issued")
      with (is_Issued ev).
    destruct (is_Issued ev).
    + reflexivity.
    + simpl. rewrite IH. reflexivity.
Qed.

Lemma createCollection_run (api : Client) (signer : Signer) (admin : string)
    (st : State L) :
  let q := signAndSubmit (create_tx admin) signer in
  let announced := after_logs st [ "Creating NFT collection..." ] in
  createCollection L api signer admin st
  = match snd (respond L (world st) api q) with
    | Resolved r =>
        (after_logs (after_request announced api q)
           (("Transaction included in block: " +:+ block_hash r)
            :: match find is_Created (events r) with
               | Some event => [ "Collection created with ID: "
                                 +:+ pretty (value_collection event) ]
               | None => []
               end),
         Returned (value_collection <$> find is_Created (events r)))
    | Rejected e => (after_request announced api q, Threw e)
    end.
Proof.
  intros q announced. unfold createCollection.
  unfold mbind at 1 2 3 4, Script_bind.
  rewrite setup_console_log_run.
  change (signAndSubmit _ signer) with q. rewrite setup_await_run.
  change (world (after_logs st _)) with (world st).
  destruct (snd (respond L (world st) api q)) as [r | e]; [| reflexivity].
  rewrite setup_console_log_run, created_loop_run, setup_after_logs_app.
  destruct (find is_Created (events r)); reflexivity.
Qed.

Lemma mintNft_run (api : Client) (signer : Signer) (collectionId itemId : Z)
    (mintTo : string) (st : State L) :
  let q := signAndSubmit (Nfts_mint collectionId itemId (Id mintTo) None)
             signer in
  let announced :=
    after_logs st [ "Minting NFT #" +:+ pretty itemId +:+ " in collection #"
                    +:+ pretty collectionId +:+ "..." ] in
  mintNft L api signer collectionId itemId mintTo st
  = match snd (respond L (world st) api q) with
    | Resolved r =>
        (after_logs (after_request announced api q)
           (("NFT minted! Block: " +:+ block_hash r)
            :: (if existsb is_Issued (events r)
                then [ "NFT #" +:+ pretty itemId +:+ " issued successfully" ]
                else [])),
         Returned (existsb is_Issued (events r)))
    | Rejected e => (after_request announced api q, Threw e)
    end.
Proof.
  intros q announced. unfold mintNft.
  unfold mbind at 1 2 3 4, Script_bind.
  rewrite setup_console_log_run.
  change (signAndSubmit _ signer) with q. rewrite setup_await_run.
  change (world (after_logs st _)) with (world st).
  destruct (snd (respond L (world st) api q)) as [r | e]; [| reflexivity].
  rewrite setup_console_log_run, issued_loop_run, setup_after_logs_app.
  destruct (existsb is_Issued (events r)); reflexivity.
Qed.

Lemma setMetadata_run (api : Client) (signer : Signer) (collectionId itemId : Z)
    (metadata : string) (st : State L) :
  let q := signAndSubmit (Nfts_set_metadata collectionId itemId metadata)
             signer in
  let announced :=
    after_logs st [ "Setting metadata for NFT #" +:+ pretty itemId
                    +:+ "..." ] in
  setMetadata L api signer collectionId itemId metadata st
  = match snd (respond L (world st) api q) with
    | Resolved r =>
        (after_logs (after_request announced api q)
           [ "Metadata set! Block: " +:+ block_hash r ],
         Returned true)
    | Rejected e => (after_request announced api q, Threw e)
    end.
Proof.
  intros q announced. unfold setMetadata.
  unfold mbind, Script_bind.
  rewrite setup_console_log_run.
  change (signAndSubmit _ signer) with q. rewrite setup_await_run.
  change (world (after_logs st _)) with (world st).
  destruct (snd (respond L (world st) api q)) as [r | e]; reflexivity.
Qed.

Lemma setup_queryNftOwner_run (api : Client) (collectionId itemId : Z)
    (st : State L) :
  let q := Nfts_Item_getValue collectionId itemId in
  queryNftOwner L api collectionId itemId st
  = (after_request st api q,
     Returned match snd (respond L (world st) api q) with
              | Resolved (Some item) => Some (owner item)
              | Resolved None => None
              | Rejected _ => None
              end).
Proof.
  intros q. unfold queryNftOwner, try_catch.
  unfold mbind, Script_bind. fold q. rewrite setup_await_run.
  destruct (snd (respond L (world st) api q)) as [[item |] | e]; reflexivity.
Qed.

(** [createCollection] sends one submission.  When it resolves, the result
    is the collection of the first [Nfts.Created] event of the receipt, and
    [null] exactly when the receipt has no such event; when it is rejected,
    the error is thrown on. *)
Theorem createCollection_first_Created (api : Client) (signer : Signer)
    (admin : string) (st : State L) :
  let q := signAndSubmit (create_tx admin) signer in
  let run := createCollection L api signer admin st in
  sent (fst run) = sent st ++ [Send api q] /\
  snd run = match snd (respond L (world st) api q) with
            | Resolved r =>
                Returned (value_collection <$> find is_Created (events r))
            | Rejected e => Threw e
            end /\
  (forall r,
     snd (respond L (world st) api q) = Resolved r ->
     (snd run = Returned None <-> existsb is_Created (events r) = false)).
Proof.
  intros q run. unfold run. rewrite createCollection_run. fold q.
  destruct (snd (respond L (world st) api q)) as [r | e]; simpl.
  - split; [reflexivity |]. split; [reflexivity |].
    intros r' [= <-].
    induction (events r) as [| ev evs IH]; simpl.
    + split; reflexivity.
    + destruct (is_Created ev); simpl; [split; discriminate | exact IH].
  - split; [reflexivity |]. split; [reflexivity |]. intros r' [=].
Qed.

(** [mintNft] sends one submission.  When it resolves, the result is [true]
    if some event of the receipt is [Nfts.Issued] and [false] otherwise;
    when it is rejected, the error is thrown on. *)
Theorem mintNft_true_iff_Issued (api : Client) (signer : Signer)
    (collectionId itemId : Z) (mintTo : string) (st : State L) :
  let q := signAndSubmit (Nfts_mint collectionId itemId (Id mintTo) None)
             signer in
  let run := mintNft L api signer collectionId itemId mintTo st in
  sent (fst run) = sent st ++ [Send api q] /\
  snd run = match snd (respond L (world st) api q) with
            | Resolved r => Returned (existsb is_Issued (events r))
            | Rejected e => Threw e
            end.
Proof.
  intros q run. unfold run. rewrite mintNft_run. fold q.
  destruct (snd (respond L (world st) api q)) as [r | e]; simpl; auto.
Qed.

(** On a chain that rejects the submissions of a signer, each of
    [createCollection], [mintNft] and [setMetadata] throws the chain's error
    after its one request, having written its first line only: none of them
    catches or tries again. *)
Theorem setup_calls_rethrow (api : Client) (signer : Signer) (admin : string)
    (collectionId itemId : Z) (mintTo metadata : string) (st : State L)
    (e : JsError) :
  (forall tx, snd (respond L (world st) api (signAndSubmit tx signer))
              = Rejected e) ->
  let created := createCollection L api signer admin st in
  let minted := mintNft L api signer collectionId itemId mintTo st in
  let described := setMetadata L api signer collectionId itemId metadata st in
  snd created = Threw e /\
  snd minted = Threw e /\
  snd described = Threw e /\
  sent (fst created) = sent st ++ [Send api (signAndSubmit (create_tx admin) signer)] /\
  sent (fst minted)
  = sent st ++ [Send api (signAndSubmit
                            (Nfts_mint collectionId itemId (Id mintTo) None)
                            signer)] /\
  sent (fst described)
  = sent st ++ [Send api (signAndSubmit
                            (Nfts_set_metadata collectionId itemId metadata)
                            signer)] /\
  length (console (fst created)) = S (length (console st)) /\
  length (console (fst minted)) = S (length (console st)) /\
  length (console (fst described)) = S (length (console st)).
Proof.
  intros He created minted described. unfold created, minted, described.
  rewrite createCollection_run, mintNft_run, setMetadata_run.
  rewrite !He. simpl. rewrite !length_app. simpl.
  repeat split; lia.
Qed.

(** *** What a script sends *)

Lemma setup_bind_eval {A B : Type} (m : Script L A) (k : A -> Script L B)
    (st : State L) :
  (m ≫= k) st
  = match m st with
    | (st', Returned a) => k a st'
    | (st', Threw e) => (st', Threw e)
    end.
Proof. reflexivity. Qed.

Lemma setup_ret_run {A : Type} (a : A) (st : State L) :
  (mret a : Script L A) st = (st, Returned a).
Proof. reflexivity. Qed.

Lemma sends_only_ret {A : Type} (P : Sent -> Prop) (a : A) :
  sends_only (L := L) P (mret a).
Proof. intros st. exists []. simpl. rewrite app_nil_r. auto. Qed.

Lemma sends_only_console_log (P : Sent -> Prop) (line : string) :
  sends_only (L := L) P (console_log line).
Proof. intros st. exists []. simpl. rewrite app_nil_r. auto. Qed.

Lemma sends_only_bind {A B : Type} (P : Sent -> Prop) (m : Script L A)
    (k : A -> Script L B) :
  sends_only P m -> (forall a, sends_only P (k a)) -> sends_only P (m ≫= k).
Proof.
  intros Hm Hk st. rewrite setup_bind_eval.
  destruct (Hm st) as (more & Hsent & Hall).
  destruct (m st) as [st' [a | e]]; simpl in Hsent.
  - destruct (Hk a st') as (more' & Hsent' & Hall').
    exists (more ++ more'). rewrite Hsent', Hsent, <- app_assoc.
    split; [reflexivity | apply Forall_app; auto].
  - exists more. simpl. auto.
Qed.

Lemma sends_only_createCollection (P : Sent -> Prop) (api : Client)
    (signer : Signer) (admin : string) :
  (forall R (q : Request R), P (Send api q)) ->
  sends_only P (createCollection L api signer admin).
Proof.
  intros HP st. rewrite createCollection_run.
  exists [Send api (signAndSubmit (create_tx admin) signer)].
  split; [| auto].
  destruct (snd (respond L (world st) api _)); reflexivity.
Qed.

Lemma sends_only_mintNft (P : Sent -> Prop) (api : Client) (signer : Signer)
    (collectionId itemId : Z) (mintTo : string) :
  (forall R (q : Request R), P (Send api q)) ->
  sends_only P (mintNft L api signer collectionId itemId mintTo).
Proof.
  intros HP st. rewrite mintNft_run.
  eexists [Send api _]. split; [| auto].
  destruct (snd (respond L (world st) api _)); reflexivity.
Qed.

Lemma sends_only_setMetadata (P : Sent -> Prop) (api : Client)
    (signer : Signer) (collectionId itemId : Z) (metadata : string) :
  (forall R (q : Request R), P (Send api q)) ->
  sends_only P (setMetadata L api signer collectionId itemId metadata).
Proof.
  intros HP st. rewrite setMetadata_run.
  eexists [Send api _]. split; [| auto].
  destruct (snd (respond L (world st) api _)); reflexivity.
Qed.

Lemma sends_only_queryNftOwner (P : Sent -> Prop) (api : Client)
    (collectionId itemId : Z) :
  (forall R (q : Request R), P (Send api q)) ->
  sends_only P (queryNftOwner L api collectionId itemId).
Proof.
  intros HP st. rewrite setup_queryNftOwner_run.
  eexists [Send api _]. split; [reflexivity | auto].
Qed.

End SetupRuns.

Ltac sends_only_tac :=
  repeat first
    [ apply sends_only_ret
    | apply sends_only_console_log
    | apply sends_only_createCollection; solve [auto]
    | apply sends_only_mintNft; solve [auto]
    | apply sends_only_setMetadata; solve [auto]
    | apply sends_only_queryNftOwner; solve [auto]
    | apply sends_only_bind; [| intros ?]
    | match goal with
      | |- Setup.sends_only _ (match ?x with _ => _ end) => destruct x
      end ].

Section SetupMain.

Import Setup.

Context (L : Setup.Ledger) (derive : string -> Bytes)
  (ss58Address : Bytes -> Z -> string) (createClient : string -> Client)
  (PARA_A_WS PARA_B_WS : option string) (message stack : JsError -> string).

Ltac run_setup :=
  repeat (first [ rewrite setup_bind_eval
                | rewrite setup_ret_run
                | rewrite setup_console_log_run
                | rewrite createCollection_run ];
          cbn beta iota zeta;
          cbn [world sent console after_logs after_request fst snd]).

(** The requests of what is left of [main], whatever they are. *)
Ltac rest_of_main P :=
  match goal with
  | |- context [@mbind _ _ ?A (Client * Client)%type ?k ?m ?s] =>
      let B := constr:((Client * Client)%type) in
      let Hrest := fresh "Hrest" in
      assert (Hrest : sends_only P (@mbind _ _ A B k m))
        by (sends_only_tac);
      destruct (Hrest s) as (more & Hmore & Hall);
      destruct (@mbind _ _ A B k m s) as [st' [[a b] | error]];
      cbn [final stderr destroyed exit_code fst] in *
  end.

(** When chain A rejects [Nfts.create], the first submission of [main], the
    script stops there: it has sent that one request, reports the error and
    ends the process with code 1; nothing is minted and chain B gets no
    request. *)
Theorem setup_main_exits_when_create_rejected (st : State L) (e : JsError) :
  let cA := createClient (PARACHAIN_A_WS PARA_A_WS) in
  let alice := createSigner derive ss58Address "//Alice" in
  let q := signAndSubmit (create_tx (address alice)) alice in
  let out := main L derive ss58Address createClient PARA_A_WS PARA_B_WS
               message stack st in
  snd (respond L (world st) cA q) = Rejected e ->
  sent (final out) = sent st ++ [Send cA q] /\
  stderr out = [ "Error: " +:+ message e; stack e ] /\
  destroyed out = [] /\
  exit_code out = Some 1.
Proof.
  intros cA alice q out He. unfold out, main, main_try.
  unfold connectToParachain, sleep.
  fold alice cA.
  run_setup. fold q. rewrite He.
  cbn [final stderr destroyed exit_code sent after_request after_logs].
  auto.
Qed.


(** When the receipt of [Nfts.create] on chain A has a [Nfts.Created] event,
    the next request of [main] mints item 1 of the collection of the first
    such event, to Alice, on chain A. *)
Theorem setup_main_mints_in_created_collection (st : State L)
    (r : TxResult) (event : TxEvent) :
  let cA := createClient (PARACHAIN_A_WS PARA_A_WS) in
  let alice := createSigner derive ss58Address "//Alice" in
  let q := signAndSubmit (create_tx (address alice)) alice in
  let mint := signAndSubmit
                (Nfts_mint (value_collection event) 1 (Id (address alice))
                   None)
                alice in
  let out := main L derive ss58Address createClient PARA_A_WS PARA_B_WS
               message stack st in
  snd (respond L (world st) cA q) = Resolved r ->
  find is_Created (events r) = Some event ->
  exists more,
    sent (final out) = sent st ++ Send cA q :: Send cA mint :: more.
Proof.
  intros cA alice q mint out Hr Hsome. unfold out, main, main_try.
  unfold connectToParachain, sleep.
  fold alice cA.
  run_setup. fold q. rewrite Hr. cbn beta iota. rewrite Hsome.
  cbn [fmap option_fmap option_map].
  rewrite !setup_bind_eval, mintNft_run. fold mint.
  cbn [world after_logs after_request].
  destruct (snd (respond L (fst (respond L (world st) cA q)) cA mint))
    as [minted | e].
  - cbn beta iota. rewrite <- setup_bind_eval.
    rest_of_main (fun s : Sent => True).
    + exists more. rewrite Hmore. cbn [sent after_logs after_request].
      rewrite <- !app_assoc. reflexivity.
    + exists more. rewrite Hmore. cbn [sent after_logs after_request].
      rewrite <- !app_assoc. reflexivity.
  - exists []. cbn [final sent after_logs after_request].
    rewrite <- !app_assoc. reflexivity.
Qed.

End SetupMain.

Lemma setup_calls_rethrow_witness :
  snd (Setup.createCollection SetupMemory.ledger clientA Memory.alice
         (address Memory.alice)
         (SetupMemory.start (SetupMemory.refusing InvalidTransaction)))
  = Threw InvalidTransaction /\
  snd (Setup.mintNft SetupMemory.ledger clientA Memory.alice 0 1
         (address Memory.alice)
         (SetupMemory.start (SetupMemory.refusing InvalidTransaction)))
  = Threw InvalidTransaction /\
  snd (Setup.setMetadata SetupMemory.ledger clientA Memory.alice 0 1
         "NFT #1 - Ready for XCM transfer"
         (SetupMemory.start (SetupMemory.refusing InvalidTransaction)))
  = Threw InvalidTransaction.
Proof.
  destruct (setup_calls_rethrow SetupMemory.ledger clientA Memory.alice
              (address Memory.alice) 0 1 (address Memory.alice)
              "NFT #1 - Ready for XCM transfer"
              (SetupMemory.start (SetupMemory.refusing InvalidTransaction))
              InvalidTransaction)
    as (Hcreate & Hmint & Hmeta & _); [intros tx; reflexivity |].
  auto.
Defined.

Lemma setup_main_exits_when_create_rejected_witness :
  let out := Setup.main SetupMemory.ledger Fixtures.derive Memory.ss58
               Fixtures.createSetupClient None None Fixtures.message
               Fixtures.stack
               (SetupMemory.start (SetupMemory.refusing InvalidTransaction)) in
  length (Setup.sent (Setup.final out)) = 1%nat /\
  Setup.exit_code out = Some 1.
Proof.
  intros out.
  destruct (setup_main_exits_when_create_rejected SetupMemory.ledger
              Fixtures.derive Memory.ss58 Fixtures.createSetupClient None None
              Fixtures.message Fixtures.stack
              (SetupMemory.start (SetupMemory.refusing InvalidTransaction))
              InvalidTransaction)
    as (Hsent & _ & _ & Hcode); [vm_compute; reflexivity |].
  split; [unfold out; rewrite Hsent; reflexivity | exact Hcode].
Defined.


Lemma setup_main_mints_in_created_collection_witness :
  let out := Setup.main SetupMemory.ledger Fixtures.derive Memory.ss58
               Fixtures.createSetupClient None None Fixtures.message
               Fixtures.stack (SetupMemory.start SetupMemory.fresh) in
  exists create more,
    Setup.sent (Setup.final out)
    = create
      :: Setup.Send clientA
           (Setup.signAndSubmit
              (Setup.Nfts_mint 0 1
                 (Setup.Id (Memory.ss58 (publicKey Memory.alice) 42)) None)
              (Setup.createSigner Fixtures.derive Memory.ss58 "//Alice"))
      :: more.
Proof.
  intros out.
  destruct (setup_main_mints_in_created_collection SetupMemory.ledger
              Fixtures.derive Memory.ss58 Fixtures.createSetupClient None None
              Fixtures.message Fixtures.stack
              (SetupMemory.start SetupMemory.fresh)
              {| Setup.block_hash := "0x01";
                 Setup.events := [ SetupMemory.event "Created" 0 ] |}
              (SetupMemory.event "Created" 0))
    as (more & Hsent);
    [vm_compute; reflexivity | reflexivity |].
  eexists. exists more. exact Hsent.
Defined.
